(** * Waste-risk scoring and recommendation engine

    A shallow embedding of [utils/waste_predictor.py] and
    [utils/recommender.py] of the food waste prediction system, together
    with the properties of the scoring engine and of the recommendation
    generator.

    Numbers are modelled as the code has them:
    - Python [float] is IEEE 754 binary64, which is exactly Rocq's primitive
      [float]; arithmetic and comparisons are the primitive ones, so every
      rounding of the source is reproduced;
    - Python [int] (day counts, the integer sub-risks, priorities) is [Z];
    - [str] is [string]; [None] is [option]; the dictionaries of the
      recommender are [gmap string (list string)].

    A [FoodItem] value is the record as the two modules observe it during
    one call: the properties [days_until_expiry] and [consumption_rate] of
    [models.py] and the expression [(date.today() - purchase_date).days]
    are read once, at the current date, and [float(...)] has been applied to
    the [Numeric] columns. *)

From Stdlib Require Import ZArith Floats Bool List String Lia.
From stdpp Require Import gmap strings list pretty.

Local Open Scope Z_scope.

(* Decimal literals such as 0.40 denote the nearest binary64 value, as they
   do in Python. *)
Set Warnings "-inexact-float".

(** ** Python values and exceptions *)

Module Py.

(** The only exception the arithmetic of the two modules can raise. *)
Inductive exn : Type := ZeroDivisionError.

Inductive result (A : Type) : Type :=
| Ok (a : A)
| Raise (e : exn).
Arguments Ok {A} a.
Arguments Raise {A} e.

Definition bind {A B : Type} (m : result A) (k : A -> result B) : result B :=
  match m with
  | Ok a => k a
  | Raise e => Raise e
  end.

(** [float(n)] for a Python [int] [n].  Exact whenever [|n| < 2^53]; every
    integer the two modules convert is a sub-risk constant or a
    [timedelta.days], whose magnitude is below [10^9]. *)
Definition float_of_Z (z : Z) : float :=
  if z <? 0
  then PrimFloat.opp (PrimFloat.of_uint63 (Uint63.of_Z (- z)))
  else PrimFloat.of_uint63 (Uint63.of_Z z).

(** [a / b] on floats: raises when the divisor compares equal to zero. *)
Definition truediv (a b : float) : result float :=
  if PrimFloat.eqb b 0 then Raise ZeroDivisionError
  else Ok (PrimFloat.div a b).

(** [max(a, b)] and [min(a, b)]: the first argument is kept unless the
    second one is strictly greater (resp. smaller). *)
Definition max (a b : float) : float := if PrimFloat.ltb a b then b else a.
Definition min (a b : float) : float := if PrimFloat.ltb b a then b else a.

End Py.

Import Py.

Notation "'let*' x ':=' m 'in' k" := (Py.bind m (fun x => k))
  (at level 10, x name, m at level 100, k at level 200).

(** ** The records of [models.py] read by the engine *)

Inductive Status : Type := Active | Consumed | Wasted | Donated.

Inductive Perishability : Type := Low | Medium | High.

Record FoodCategory : Type := {
  category_name : string;
  perishability_level : Perishability
}.

Record FoodItem : Type := {
  item_name : string;
  category : FoodCategory;
  quantity : float;                 (* float(food_item.quantity) *)
  initial_quantity : float;         (* float(food_item.initial_quantity) *)
  status : Status;
  waste_risk_score : float;         (* float(food_item.waste_risk_score) *)
  days_until_expiry : option Z;     (* None when there is no expiry date *)
  consumption_rate : float;
  days_since_purchase : Z           (* (date.today() - purchase_date).days *)
}.

Definition is_active (s : Status) : bool :=
  match s with
  | Active => true
  | _ => false
  end.

(** The same item observed with another value of [days_until_expiry]. *)
Definition with_days_until_expiry (d : option Z) (it : FoodItem) : FoodItem :=
  {| item_name := item_name it;
     category := category it;
     quantity := quantity it;
     initial_quantity := initial_quantity it;
     status := status it;
     waste_risk_score := waste_risk_score it;
     days_until_expiry := d;
     consumption_rate := consumption_rate it;
     days_since_purchase := days_since_purchase it |}.

(** ** [utils/waste_predictor.py] *)

Module WastePredictor.

Definition SHELF_LIFE_WEIGHT : float := 0.40%float.
Definition CONSUMPTION_WEIGHT : float := 0.30%float.
Definition QUANTITY_WEIGHT : float := 0.20%float.
Definition PERISHABILITY_WEIGHT : float := 0.10%float.

Definition _calculate_shelf_life_risk (food_item : FoodItem) : Z :=
  match days_until_expiry food_item with
  | None => 50
  | Some d =>
      if d <? 0 then 100
      else if d <=? 2 then 90
      else if d <=? 5 then 70
      else if d <=? 10 then 50
      else if d <=? 20 then 30
      else 10
  end.

Definition _calculate_consumption_risk (food_item : FoodItem) : result Z :=
  let rate := consumption_rate food_item in
  let remaining_quantity := quantity food_item in
  match days_until_expiry food_item with
  | None => Ok 100
  | Some d =>
      if d <=? 0 then Ok 100
      else if PrimFloat.eqb rate 0 then
        if days_since_purchase food_item >? 3 then Ok 80 else Ok 50
      else
        let* days_to_consume :=
          (if PrimFloat.ltb 0 rate then truediv remaining_quantity rate
           else Ok 999%float) in
        if PrimFloat.ltb (PrimFloat.mul (float_of_Z d) 1.5) days_to_consume
        then Ok 90
        else if PrimFloat.ltb (float_of_Z d) days_to_consume then Ok 70
        else if PrimFloat.ltb (PrimFloat.mul (float_of_Z d) 0.8) days_to_consume
        then Ok 50
        else Ok 20
  end.

Definition _calculate_quantity_risk (food_item : FoodItem) : result Z :=
  let remaining_quantity := quantity food_item in
  let initial := initial_quantity food_item in
  if PrimFloat.eqb initial 0 then Ok 0
  else
    let* ratio := truediv remaining_quantity initial in
    let percentage_remaining := PrimFloat.mul ratio 100 in
    if PrimFloat.ltb 80 percentage_remaining then Ok 70
    else if PrimFloat.ltb 60 percentage_remaining then Ok 50
    else if PrimFloat.ltb 40 percentage_remaining then Ok 30
    else if PrimFloat.ltb 20 percentage_remaining then Ok 15
    else Ok 5.

Definition _calculate_perishability_risk (food_item : FoodItem) : Z :=
  match perishability_level (category food_item) with
  | High => 80
  | Medium => 50
  | Low => 20
  end.

(** The weighted sum of [calculate_waste_risk], associated to the left as
    Python evaluates it. *)
Definition weighted_sum (shelf_life_risk consumption_risk quantity_risk
                         perishability_risk : Z) : float :=
  (float_of_Z shelf_life_risk * SHELF_LIFE_WEIGHT
   + float_of_Z consumption_risk * CONSUMPTION_WEIGHT
   + float_of_Z quantity_risk * QUANTITY_WEIGHT
   + float_of_Z perishability_risk * PERISHABILITY_WEIGHT)%float.

Definition calculate_waste_risk (food_item : FoodItem) : result float :=
  if negb (is_active (status food_item)) then Ok 0%float
  else
    let shelf_life_risk := _calculate_shelf_life_risk food_item in
    let* consumption_risk := _calculate_consumption_risk food_item in
    let* quantity_risk := _calculate_quantity_risk food_item in
    let perishability_risk := _calculate_perishability_risk food_item in
    let risk_score :=
      weighted_sum shelf_life_risk consumption_risk quantity_risk
                   perishability_risk in
    Ok (Py.min 100 (Py.max 0 risk_score)).

Definition should_generate_alert (food_item : FoodItem) (threshold : float)
  : bool :=
  let risk_score := waste_risk_score food_item in
  if PrimFloat.leb threshold risk_score then true
  else
    match days_until_expiry food_item with
    | Some d =>
        if d <=? 3 then true
        else if d <? 0 then true
        else false
    | None => false
    end.

(** The default value of the parameter [threshold]. *)
Definition default_threshold : float := 40%float.

Definition get_risk_level (risk_score : float) : string :=
  if PrimFloat.leb 70 risk_score then "High"
  else if PrimFloat.leb 40 risk_score then "Medium"
  else "Low".

Definition get_risk_color (risk_score : float) : string :=
  if PrimFloat.leb 70 risk_score then "danger"
  else if PrimFloat.leb 40 risk_score then "warning"
  else "success".

End WastePredictor.

(** ** [utils/recommender.py] *)

Module WasteReductionRecommender.

Inductive RecommendationType : Type :=
| UseSoon            (* 'Use Soon' *)
| Preserve           (* 'Preserve' *)
| Donate             (* 'Donate' *)
| RecipeSuggestion.  (* 'Recipe Suggestion' *)

(** The dictionaries [{'type': .., 'priority': .., 'text': ..}]. *)
Record Recommendation : Type := {
  type : RecommendationType;
  priority : Z;
  text : string
}.

Definition PRESERVATION_METHODS : gmap string (list string) :=
  list_to_map [
    ("Vegetables",
      ["Store in crisper drawer with proper humidity";
       "Blanch and freeze for long-term storage";
       "Make vegetable soup or stir-fry";
       "Pickle or ferment for extended shelf life"]);
    ("Fruits",
      ["Freeze for smoothies or baking";
       "Make fruit jam or compote";
       "Dehydrate for fruit chips";
       "Store separately from ethylene-sensitive items"]);
    ("Dairy",
      ["Freeze milk, cheese, or butter";
       "Make yogurt or cheese";
       "Use in baking or cooking";
       "Store in coldest part of refrigerator"]);
    ("Meat",
      ["Freeze immediately if not using soon";
       "Cook and refrigerate for meal prep";
       "Marinate for extended flavor and life";
       "Store in coldest part of refrigerator"]);
    ("Fish",
      ["Freeze immediately if not using within 24 hours";
       "Cook and use in salads or pasta";
       "Smoke or cure for preservation";
       "Store on ice in refrigerator"]);
    ("Bread & Bakery",
      ["Freeze sliced bread for freshness";
       "Make bread crumbs or croutons";
       "Toast or make French toast";
       "Store in paper bag at room temperature"]);
    ("Grains",
      ["Store in airtight containers";
       "Keep in cool, dry place";
       "Cook in batches for meal prep";
       "Check for moisture or pests regularly"])
  ]%string.

Definition RECIPE_SUGGESTIONS : gmap string (list string) :=
  list_to_map [
    ("Vegetables",
      ["Vegetable stir-fry with rice";
       "Mixed vegetable curry";
       "Vegetable soup";
       "Roasted vegetable medley";
       "Vegetable fried rice"]);
    ("Fruits",
      ["Fruit smoothie";
       "Fruit salad";
       "Baked fruit dessert";
       "Fresh fruit juice";
       "Fruit yogurt parfait"]);
    ("Dairy",
      ["Cheese omelette";
       "Creamy pasta sauce";
       "Homemade ice cream";
       "Yogurt-based smoothie";
       "Cheese-stuffed dishes"]);
    ("Meat",
      ["Stir-fried meat with vegetables";
       "Meat curry";
       "Grilled meat skewers";
       "Meat fried rice";
       "Meat soup"]);
    ("Bread & Bakery",
      ["French toast";
       "Bread pudding";
       "Garlic bread";
       "Sandwiches";
       "Bread pizza"])
  ]%string.

(** [str(n)] of a Python [int], as an f-string interpolates it. *)
Definition str (n : Z) : string := pretty n.

(** [sep.join(l)]. *)
Definition join (sep : string) (l : list string) : string :=
  String.concat sep l.

Definition _get_urgent_recommendations (food_item : FoodItem)
  : list Recommendation :=
  let name := item_name food_item in
  let high_risk :=
    {| type := UseSoon; priority := 1;
       text := "⚠️ HIGH RISK: " +:+ name +:+
               " is at high risk of waste. Use soon or consider donating." |} in
  let expiry_entry :=
    match days_until_expiry food_item with
    | Some d =>
        if d <? 0 then
          {| type := UseSoon; priority := 1;
             text := "⚠️ EXPIRED: Check if " +:+ name +:+
                     " is still safe. If spoiled, dispose immediately." |}
        else if d <=? 1 then
          {| type := UseSoon; priority := 1;
             text := "🚨 USE TODAY: " +:+ name +:+ " expires in " +:+ str d +:+
                     " day(s). Use immediately or freeze." |}
        else if d <=? 3 then
          {| type := UseSoon; priority := 1;
             text := "⚡ URGENT: Use " +:+ name +:+ " within " +:+ str d +:+
                     " days or preserve it." |}
        else high_risk
    | None => high_risk
    end in
  let donation :=
    if PrimFloat.ltb (PrimFloat.mul (initial_quantity food_item) 0.5)
                     (quantity food_item)
    then [ {| type := Donate; priority := 1;
              text := "Consider donating excess " +:+ name +:+
                      " to reduce waste." |} ]
    else [] in
  expiry_entry :: donation.

Definition _get_medium_risk_recommendations (food_item : FoodItem)
  : list Recommendation :=
  let name := item_name food_item in
  let planning :=
    match days_until_expiry food_item with
    | Some d =>
        [ {| type := UseSoon; priority := 2;
             text := "📅 Plan to use " +:+ name +:+ " within " +:+ str d +:+
                     " days." |} ]
    | None => []
    end in
  let pace :=
    if PrimFloat.eqb (consumption_rate food_item) 0 then
      [ {| type := UseSoon; priority := 2;
           text := "⏰ Start using " +:+ name +:+
                   " - no consumption recorded yet." |} ]
    else if PrimFloat.ltb (consumption_rate food_item) 0.1 then
      [ {| type := UseSoon; priority := 2;
           text := "🐌 Slow consumption rate for " +:+ name +:+
                   ". Increase usage frequency." |} ]
    else [] in
  planning ++ pace.

Definition _get_low_risk_recommendations (food_item : FoodItem)
  : list Recommendation :=
  [ {| type := UseSoon; priority := 3;
       text := "✅ " +:+ item_name food_item +:+
               " is being consumed well. Continue current usage pattern." |} ].

(** [days_until_expiry is not None and days_until_expiry <= n]. *)
Definition known_le (d : option Z) (n : Z) : bool :=
  match d with
  | Some d => d <=? n
  | None => false
  end.

Definition generate_recommendations (food_item : FoodItem)
  : list Recommendation :=
  let risk_score := waste_risk_score food_item in
  let days := days_until_expiry food_item in
  let name := category_name (category food_item) in
  let tier :=
    if PrimFloat.leb 70 risk_score || known_le days 3 then
      _get_urgent_recommendations food_item
    else if PrimFloat.leb 40 risk_score || known_le days 7 then
      _get_medium_risk_recommendations food_item
    else
      _get_low_risk_recommendations food_item in
  let preservation :=
    match PRESERVATION_METHODS !! name with
    | Some methods =>
        [ {| type := Preserve; priority := 2;
             text := "Preservation options: " +:+ join ", " (take 2 methods) |} ]
    | None => []
    end in
  let recipe :=
    match RECIPE_SUGGESTIONS !! name with
    | Some ideas =>
        let recipes := take 2 ideas in
        [ {| type := RecipeSuggestion; priority := 3;
             text := "Try making: " +:+ join " or " recipes |} ]
    | None => []
    end in
  tier ++ preservation ++ recipe.

Definition get_alert_message (food_item : FoodItem) : string :=
  let risk_score := waste_risk_score food_item in
  let name := item_name food_item in
  let by_score :=
    if PrimFloat.leb 70 risk_score then
      name +:+ " is at high risk of waste. Take action now."
    else if PrimFloat.leb 40 risk_score then
      name +:+ " needs attention. Plan to use soon."
    else
      name +:+ " status update." in
  match days_until_expiry food_item with
  | Some d =>
      if d <? 0 then
        name +:+ " has expired! Please check and dispose if spoiled."
      else if d <=? 1 then
        name +:+ " expires today! Use immediately."
      else if d <=? 3 then
        name +:+ " expires in " +:+ str d +:+ " days. Use soon!"
      else by_score
  | None => by_score
  end.

End WasteReductionRecommender.

Import WastePredictor WasteReductionRecommender.

(** ** The contracts of the specification

    Definitions written after the words of the specification, to be
    compared with the functions above. *)

Module Spec.

(** Quantity sub-risk: [percentageRemaining] is
    [quantityRemaining / initialQuantity * 100], taken to be [0] when
    [initialQuantity == 0]; [quantity_step] is the step function. *)
Definition percentageRemaining (it : FoodItem) : float :=
  if PrimFloat.eqb (initial_quantity it) 0 then 0%float
  else (quantity it / initial_quantity it * 100)%float.

Definition quantity_step (p : float) : Z :=
  if PrimFloat.ltb 80 p then 70
  else if PrimFloat.ltb 60 p then 50
  else if PrimFloat.ltb 40 p then 30
  else if PrimFloat.ltb 20 p then 15
  else 5.

Definition quantity_risk (it : FoodItem) : Z :=
  quantity_step (percentageRemaining it).

(** Consumption sub-risk. *)
Definition pace_step (daysToConsume : float) (daysUntilExpiry : Z) : Z :=
  if PrimFloat.ltb (float_of_Z daysUntilExpiry * 1.5) daysToConsume then 90
  else if PrimFloat.ltb (float_of_Z daysUntilExpiry) daysToConsume then 70
  else if PrimFloat.ltb (float_of_Z daysUntilExpiry * 0.8) daysToConsume
  then 50
  else 20.

Definition consumption_risk (it : FoodItem) : Z :=
  match days_until_expiry it with
  | None => 100
  | Some d =>
      if d <=? 0 then 100
      else if PrimFloat.eqb (consumption_rate it) 0 then
        if 3 <? days_since_purchase it then 80 else 50
      else pace_step (quantity it / consumption_rate it) d
  end.

(** The rules of the alert message, in their order of precedence. *)
Inductive AlertRule : Type :=
| ExpiredRule
| ExpiresTodayRule
| ExpiresInDaysRule (n : Z)
| HighRiskRule
| NeedsAttentionRule
| StatusRule.

Definition alert_rule (days : option Z) (score : float) : AlertRule :=
  match days with
  | Some d =>
      if d <? 0 then ExpiredRule
      else if d <=? 1 then ExpiresTodayRule
      else if d <=? 3 then ExpiresInDaysRule d
      else if PrimFloat.leb 70 score then HighRiskRule
      else if PrimFloat.leb 40 score then NeedsAttentionRule
      else StatusRule
  | None =>
      if PrimFloat.leb 70 score then HighRiskRule
      else if PrimFloat.leb 40 score then NeedsAttentionRule
      else StatusRule
  end.

Definition alert_text (name : string) (r : AlertRule) : string :=
  match r with
  | ExpiredRule =>
      name +:+ " has expired! Please check and dispose if spoiled."
  | ExpiresTodayRule => name +:+ " expires today! Use immediately."
  | ExpiresInDaysRule n =>
      name +:+ " expires in " +:+ str n +:+ " days. Use soon!"
  | HighRiskRule => name +:+ " is at high risk of waste. Take action now."
  | NeedsAttentionRule => name +:+ " needs attention. Plan to use soon."
  | StatusRule => name +:+ " status update."
  end.

(** The recommendation tiers. *)
Definition urgent_tier (it : FoodItem) : bool :=
  PrimFloat.leb 70 (waste_risk_score it) || known_le (days_until_expiry it) 3.

Definition medium_tier (it : FoodItem) : bool :=
  negb (urgent_tier it)
  && (PrimFloat.leb 40 (waste_risk_score it)
      || known_le (days_until_expiry it) 7).

End Spec.

(** ** The properties of [FoodItem] in [models.py]

    A row of [food_items] with its consumption logs.  Dates are day numbers
    ([date.toordinal()]), so that [(a - b).days] is a difference in [Z].
    The properties [days_until_expiry] and [consumption_rate] read the
    clock; it is the parameter [today]. *)

Module Models.

Record FoodItemRow : Type := {
  row_item_name : string;
  row_category : FoodCategory;
  row_quantity : float;
  row_initial_quantity : float;
  row_status : Status;
  row_waste_risk_score : float;
  purchase_date : Z;
  expiry_date : option Z;
  consumption_logs : list float   (* float(log.quantity_consumed), in order *)
}.

(** [a / n] for a float [a] and an [int] [n]: raises exactly when [n] is
    zero (a non-zero [int] in the range of a date difference converts to a
    non-zero float). *)
Definition truediv_int (a : float) (n : Z) : result float :=
  if n =? 0 then Raise ZeroDivisionError
  else Ok (PrimFloat.div a (float_of_Z n)).

Section Properties.

(** The built-in [sum] over floats, whose rounding depends on the version
    of the interpreter. *)
Variable sum : list float -> float.

Variable today : Z.

Definition days_until_expiry_of (row : FoodItemRow) : option Z :=
  match expiry_date row with
  | Some e => Some (e - today)
  | None => None
  end.

Definition consumption_rate_of (row : FoodItemRow) : result float :=
  match consumption_logs row with
  | [] => Ok 0%float
  | _ :: _ =>
      let days_since_purchase := today - purchase_date row in
      if days_since_purchase <=? 0 then Ok 0%float
      else
        let total_consumed := sum (consumption_logs row) in
        truediv_int total_consumed days_since_purchase
  end.

(** The item as the scorer and the recommender read it on day [today]. *)
Definition observe (row : FoodItemRow) : result FoodItem :=
  let* rate := consumption_rate_of row in
  Ok {| item_name := row_item_name row;
        category := row_category row;
        quantity := row_quantity row;
        initial_quantity := row_initial_quantity row;
        status := row_status row;
        waste_risk_score := row_waste_risk_score row;
        days_until_expiry := days_until_expiry_of row;
        consumption_rate := rate;
        days_since_purchase := today - purchase_date row |}.

End Properties.

End Models.

(** ** [routes/prediction.py]: rescoring and the dashboard lists *)

Module PredictionRoute.

(** The values of [Alert.alert_type]. *)
Inductive AlertType : Type :=
| HighRisk        (* 'High Risk' *)
| MediumRisk      (* 'Medium Risk' *)
| ExpiringSoon    (* 'Expiring Soon' *)
| Expired.        (* 'Expired' *)

Record Alert : Type := {
  alert_type : AlertType;
  alert_message : string;
  recommendation : string
}.

(** What the body of the loop of [calculate_risk] can raise: an arithmetic
    exception of the scorer, or [TypeError] on comparing [None] with a
    number. *)
Inductive error : Type :=
| Arithmetic (e : Py.exn)
| TypeError.

Inductive outcome (A : Type) : Type :=
| Return (a : A)
| Fail (e : error).
Arguments Return {A} a.
Arguments Fail {A} e.

(** [item.waste_risk_score = risk_score]. *)
Definition with_waste_risk_score (r : float) (it : FoodItem) : FoodItem :=
  {| item_name := item_name it;
     category := category it;
     quantity := quantity it;
     initial_quantity := initial_quantity it;
     status := status it;
     waste_risk_score := r;
     days_until_expiry := days_until_expiry it;
     consumption_rate := consumption_rate it;
     days_since_purchase := days_since_purchase it |}.

(** The conditional expression that chooses [alert_type]; it compares
    [item.days_until_expiry] with 0 without testing it for [None]. *)
Definition select_alert_type (item : FoodItem) (risk_score : float)
  : outcome AlertType :=
  match days_until_expiry item with
  | None => Fail TypeError
  | Some d =>
      Return (if d <? 0 then Expired
              else if d <=? 3 then ExpiringSoon
              else if PrimFloat.leb 70 risk_score then HighRisk
              else MediumRisk)
  end.

(** One turn of the loop of [calculate_risk]; [existing_alert] tells whether
    the query finds an unread alert of the item.  The result is the item
    with its new score and the alert added to the session, if any. *)
Definition process_item (item : FoodItem) (existing_alert : bool)
  : outcome (FoodItem * option Alert) :=
  match calculate_waste_risk item with
  | Raise e => Fail (Arithmetic e)
  | Ok risk_score =>
      let item := with_waste_risk_score risk_score item in
      if should_generate_alert item default_threshold then
        if negb existing_alert then
          match select_alert_type item risk_score with
          | Fail e => Fail e
          | Return alert_type =>
              Return
                (item,
                 Some {| alert_type := alert_type;
                         alert_message := get_alert_message item;
                         recommendation :=
                           join "; "
                             (map text
                                (take 2 (generate_recommendations item))) |})
          end
        else Return (item, None)
      else Return (item, None)
  end.

(** The loop of [calculate_risk] over the active items, each paired with the
    answer of its query for an unread alert.  An exception leaves the loop:
    the session is rolled back and nothing is kept. *)
Fixpoint process_items (active_items : list (FoodItem * bool))
  : outcome (list (FoodItem * option Alert)) :=
  match active_items with
  | [] => Return []
  | (item, existing_alert) :: rest =>
      match process_item item existing_alert with
      | Fail e => Fail e
      | Return done =>
          match process_items rest with
          | Fail e => Fail e
          | Return dones => Return (done :: dones)
          end
      end
  end.

(** [updated_count] and [alerts_created] at the end of the loop. *)
Definition updated_count (dones : list (FoodItem * option Alert)) : nat :=
  length dones.

Definition alerts_created (dones : list (FoodItem * option Alert)) : nat :=
  length (List.filter (fun done => match snd done with
                                   | Some _ => true
                                   | None => false
                                   end) dones).

(** The lists of [dashboard]. *)
Definition high_risk_items (active_items : list FoodItem) : list FoodItem :=
  List.filter (fun item => PrimFloat.leb 70 (waste_risk_score item))
              active_items.

Definition medium_risk_items (active_items : list FoodItem) : list FoodItem :=
  List.filter (fun item => PrimFloat.leb 40 (waste_risk_score item)
                           && PrimFloat.ltb (waste_risk_score item) 70)
              active_items.

Definition expiring_soon (active_items : list FoodItem) : list FoodItem :=
  List.filter (fun item => match days_until_expiry item with
                           | Some d => (0 <=? d) && (d <=? 3)
                           | None => false
                           end)
              active_items.

End PredictionRoute.

(** ** The values a score can take

    Each sub-risk ranges over a handful of integer constants, so the
    weighted sum ranges over a finite set of floats, which is enumerated. *)

Definition shelf_life_values : list Z := [50; 100; 90; 70; 30; 10].
Definition consumption_values : list Z := [100; 80; 50; 90; 70; 20].
Definition quantity_values : list Z := [0; 70; 50; 30; 15; 5].
Definition perishability_values : list Z := [80; 50; 20].

Definition clamp (risk_score : float) : float :=
  Py.min 100 (Py.max 0 risk_score).

Definition every_score (P : float -> bool) : bool :=
  forallb (fun s =>
    forallb (fun c =>
      forallb (fun q =>
        forallb (fun p => P (clamp (weighted_sum s c q p)))
                perishability_values)
              quantity_values)
            consumption_values)
          shelf_life_values.

(** The same enumeration with the shelf-life and the consumption sub-risks
    restricted to the lists [ss] and [cs]. *)
Definition every_score_with (ss cs : list Z) (P : float -> bool) : bool :=
  forallb (fun s =>
    forallb (fun c =>
      forallb (fun q =>
        forallb (fun p => P (clamp (weighted_sum s c q p)))
                perishability_values)
              quantity_values)
            cs)
          ss.

(** All quadruples of sub-risk values. *)
Definition sub_risk_quadruples : list (Z * Z * Z * Z) :=
  s ← shelf_life_values; c ← consumption_values;
  q ← quantity_values; p ← perishability_values;
  [(s, c, q, p)].

Definition quadruple_le (a b : Z * Z * Z * Z) : bool :=
  match a, b with
  | (s1, c1, q1, p1), (s2, c2, q2, p2) =>
      (s1 <=? s2) && (c1 <=? c2) && (q1 <=? q2) && (p1 <=? p2)
  end.

Definition quadruple_score (a : Z * Z * Z * Z) : float :=
  match a with
  | (s, c, q, p) => clamp (weighted_sum s c q p)
  end.

(** Raising sub-risks never lowers the clamped weighted sum, checked on all
    pairs of quadruples of a list. *)
Definition scores_monotone_on (quadruples : list (Z * Z * Z * Z)) : bool :=
  forallb (fun a =>
    forallb (fun b =>
      implb (quadruple_le a b)
            (PrimFloat.leb (quadruple_score a) (quadruple_score b)))
      quadruples)
    quadruples.

(** ** Sample items *)

Definition grains : FoodCategory :=
  {| category_name := "Grains"; perishability_level := Low |}.

Definition fish : FoodCategory :=
  {| category_name := "Fish"; perishability_level := High |}.

(** A bag of rice bought ten days ago, 5 of 100 units left, eaten at 5
    units a day, 25 days before its expiry date. *)
Definition rice : FoodItem :=
  {| item_name := "Rice";
     category := grains;
     quantity := 5;
     initial_quantity := 100;
     status := Active;
     waste_risk_score := 13;
     days_until_expiry := Some 25;
     consumption_rate := 5;
     days_since_purchase := 10 |}.

(** An active item whose initial quantity is zero. *)
Definition empty_rice : FoodItem :=
  {| item_name := "Rice";
     category := grains;
     quantity := 0;
     initial_quantity := 0;
     status := Active;
     waste_risk_score := 0;
     days_until_expiry := Some 25;
     consumption_rate := 0;
     days_since_purchase := 0 |}.

(** A medium-risk item without an expiry date, eaten at half a unit a day. *)
Definition undated_rice : FoodItem :=
  {| item_name := "Rice";
     category := grains;
     quantity := 40;
     initial_quantity := 100;
     status := Active;
     waste_risk_score := 50;
     days_until_expiry := None;
     consumption_rate := 0.5;
     days_since_purchase := 10 |}.

(** A piece of salmon that expired yesterday. *)
Definition salmon : FoodItem :=
  {| item_name := "Salmon";
     category := fish;
     quantity := 1;
     initial_quantity := 2;
     status := Active;
     waste_risk_score := 10;
     days_until_expiry := Some (-1);
     consumption_rate := 0;
     days_since_purchase := 4 |}.

(** ** Properties of the risk scorer *)

Lemma shelf_life_risk_values (it : FoodItem) :
  In (_calculate_shelf_life_risk it) shelf_life_values.
Proof.
  unfold _calculate_shelf_life_risk, shelf_life_values.
  destruct (days_until_expiry it) as [d|]; simpl; auto.
  repeat match goal with
         | |- context [if ?b then _ else _] => destruct b
         end; simpl; auto 10.
Qed.

Lemma perishability_risk_values (it : FoodItem) :
  In (_calculate_perishability_risk it) perishability_values.
Proof.
  unfold _calculate_perishability_risk, perishability_values.
  destruct (perishability_level (category it)); simpl; auto.
Qed.

Lemma consumption_risk_values (it : FoodItem) :
  exists c, _calculate_consumption_risk it = Ok c /\ In c consumption_values.
Proof.
  unfold _calculate_consumption_risk, consumption_values, truediv.
  destruct (days_until_expiry it) as [d|]; [|eexists; split; [reflexivity|simpl; auto]].
  destruct (d <=? 0); [eexists; split; [reflexivity|simpl; auto]|].
  destruct (PrimFloat.eqb (consumption_rate it) 0).
  - destruct (days_since_purchase it >? 3);
      eexists; (split; [reflexivity|simpl; auto]).
  - destruct (PrimFloat.ltb 0 (consumption_rate it)); simpl;
      repeat match goal with
             | |- context [if ?b then _ else _] => destruct b
             end; eexists; (split; [reflexivity|simpl; auto 10]).
Qed.

Lemma quantity_risk_values (it : FoodItem) :
  exists q, _calculate_quantity_risk it = Ok q /\ In q quantity_values.
Proof.
  unfold _calculate_quantity_risk, quantity_values, truediv.
  destruct (PrimFloat.eqb (initial_quantity it) 0); simpl.
  - eexists; split; [reflexivity|simpl; auto].
  - repeat match goal with
           | |- context [if ?b then _ else _] => destruct b
           end; eexists; (split; [reflexivity|simpl; auto 10]).
Qed.

Lemma every_score_spec (P : float -> bool) (s c q p : Z) :
  every_score P = true ->
  In s shelf_life_values -> In c consumption_values ->
  In q quantity_values -> In p perishability_values ->
  P (clamp (weighted_sum s c q p)) = true.
Proof.
  unfold every_score. intros H Hs Hc Hq Hp.
  rewrite forallb_forall in H. specialize (H s Hs).
  rewrite forallb_forall in H. specialize (H c Hc).
  rewrite forallb_forall in H. specialize (H q Hq).
  rewrite forallb_forall in H. exact (H p Hp).
Qed.

(** An active item is scored by clamping the weighted sum of four sub-risks,
    each taken from its list of values; no division fails on the way. *)
Lemma active_score_shape (it : FoodItem) :
  status it = Active ->
  exists s c q p,
    calculate_waste_risk it = Ok (clamp (weighted_sum s c q p))
    /\ s = _calculate_shelf_life_risk it
    /\ _calculate_consumption_risk it = Ok c
    /\ _calculate_quantity_risk it = Ok q
    /\ p = _calculate_perishability_risk it
    /\ In s shelf_life_values /\ In c consumption_values
    /\ In q quantity_values /\ In p perishability_values.
Proof.
  intros Hact.
  destruct (consumption_risk_values it) as (c & Hc & Hcin).
  destruct (quantity_risk_values it) as (q & Hq & Hqin).
  exists (_calculate_shelf_life_risk it), c, q,
         (_calculate_perishability_risk it).
  unfold calculate_waste_risk. rewrite Hact, Hc, Hq. simpl.
  pose proof (shelf_life_risk_values it).
  pose proof (perishability_risk_values it).
  tauto.
Qed.

Lemma inactive_score (it : FoodItem) :
  status it <> Active -> calculate_waste_risk it = Ok 0%float.
Proof.
  unfold calculate_waste_risk.
  destruct (status it); simpl; congruence.
Qed.

Lemma every_score_in_range :
  every_score (fun r => PrimFloat.leb 0 r && PrimFloat.leb r 100) = true.
Proof. vm_compute. reflexivity. Qed.

Lemma every_score_at_least_12 :
  every_score (fun r => PrimFloat.leb 12 r && negb (PrimFloat.eqb r 0)) = true.
Proof. vm_compute. reflexivity. Qed.

(** C8: an item whose status is Consumed, Wasted or Donated gets the score 0,
    whatever its other fields are: the sub-risks play no part in the result,
    which is returned before any of them is computed. *)
Theorem non_active_score_is_zero (it : FoodItem) :
  status it <> Active ->
  calculate_waste_risk it = Ok 0%float.
Proof.
  intros Hstatus. unfold calculate_waste_risk.
  destruct (status it) eqn:Hst; simpl.
  - contradiction.
  - reflexivity.
  - reflexivity.
  - reflexivity.
Qed.

Lemma non_active_score_is_zero_witness :
  status (with_days_until_expiry None
            {| item_name := "Milk"; category := fish; quantity := 1;
               initial_quantity := 0; status := Wasted;
               waste_risk_score := 55; days_until_expiry := Some 2;
               consumption_rate := 0; days_since_purchase := 9 |}) <> Active
  /\ calculate_waste_risk
       (with_days_until_expiry None
            {| item_name := "Milk"; category := fish; quantity := 1;
               initial_quantity := 0; status := Wasted;
               waste_risk_score := 55; days_until_expiry := Some 2;
               consumption_rate := 0; days_since_purchase := 9 |})
     = Ok 0%float.
Proof.
  split; [simpl; discriminate|].
  apply non_active_score_is_zero. simpl. discriminate.
Defined.

(** C3: [calculate_waste_risk] returns a value on every item, whatever its
    quantities, consumption rate, expiry and status are (no division is
    reached with a zero divisor), and the value lies between 0 and 100. *)
Theorem score_total_and_bounded (it : FoodItem) :
  exists r, calculate_waste_risk it = Ok r
            /\ PrimFloat.leb 0 r = true /\ PrimFloat.leb r 100 = true.
Proof.
  destruct (status it) eqn:Hst.
  1: { destruct (active_score_shape it Hst)
         as (s & c & q & p & Hr & _ & _ & _ & _ & Hs & Hc & Hq & Hp).
       exists (clamp (weighted_sum s c q p)). split; [exact Hr|].
       apply andb_prop.
       exact (every_score_spec _ s c q p every_score_in_range Hs Hc Hq Hp). }
  all: exists 0%float; split;
    [apply inactive_score; congruence | split; reflexivity].
Qed.

(** C7: for two known numbers of days until expiry [d1 <= d2], all other
    fields being the same, the shelf-life sub-risk at [d1] is at least the
    shelf-life sub-risk at [d2]. *)
Theorem shelf_life_risk_antitone (it : FoodItem) (d1 d2 : Z) :
  d1 <= d2 ->
  _calculate_shelf_life_risk (with_days_until_expiry (Some d2) it)
  <= _calculate_shelf_life_risk (with_days_until_expiry (Some d1) it).
Proof.
  intros Hle. unfold _calculate_shelf_life_risk. simpl.
  repeat match goal with
         | |- context [?a <? ?b] => destruct (Z.ltb_spec a b)
         | |- context [?a <=? ?b] => destruct (Z.leb_spec a b)
         end; lia.
Qed.

Lemma shelf_life_risk_antitone_witness :
  2 <= 3
  /\ _calculate_shelf_life_risk (with_days_until_expiry (Some 3) rice)
     <= _calculate_shelf_life_risk (with_days_until_expiry (Some 2) rice).
Proof.
  split; [lia|]. apply shelf_life_risk_antitone. lia.
Defined.

(** C10: an active item scores at least 12.  The shelf-life sub-risk is at
    least 10, the consumption sub-risk at least 20, the perishability
    sub-risk at least 20 (and the quantity sub-risk at least 0), so the
    clamped weighted sum is at least 12; in particular the score of an
    active item is never 0. *)
Theorem active_score_at_least_12 (it : FoodItem) :
  status it = Active ->
  10 <= _calculate_shelf_life_risk it
  /\ (exists c, _calculate_consumption_risk it = Ok c /\ 20 <= c)
  /\ (exists q, _calculate_quantity_risk it = Ok q /\ 0 <= q)
  /\ 20 <= _calculate_perishability_risk it
  /\ (exists r, calculate_waste_risk it = Ok r
                /\ PrimFloat.leb 12 r = true
                /\ PrimFloat.eqb r 0 = false).
Proof.
  intros Hact.
  destruct (active_score_shape it Hact)
    as (s & c & q & p & Hr & Hs' & Hc' & Hq' & Hp' & Hs & Hc & Hq & Hp).
  pose proof (every_score_spec _ s c q p every_score_at_least_12 Hs Hc Hq Hp)
    as Hfloor.
  apply andb_prop in Hfloor. destruct Hfloor as [H12 Hnz].
  apply negb_true_iff in Hnz.
  subst s p.
  unfold shelf_life_values, consumption_values, quantity_values,
    perishability_values in *. simpl in Hs, Hc, Hq, Hp.
  repeat split.
  - lia.
  - exists c. split; [exact Hc'|lia].
  - exists q. split; [exact Hq'|lia].
  - lia.
  - eexists. repeat split; eassumption.
Qed.

Lemma active_score_at_least_12_witness :
  status empty_rice = Active
  /\ exists r, calculate_waste_risk empty_rice = Ok r
               /\ PrimFloat.leb 12 r = true
               /\ PrimFloat.eqb r 0 = false.
Proof.
  split; [reflexivity|].
  apply (active_score_at_least_12 empty_rice). reflexivity.
Defined.

(** The floor is reached: a long-lived, low-perishability item with a zero
    initial quantity that is eaten fast enough scores exactly 12. *)
Example score_floor_reached :
  calculate_waste_risk
    {| item_name := "Rice"; category := grains; quantity := 0;
       initial_quantity := 0; status := Active; waste_risk_score := 0;
       days_until_expiry := Some 25; consumption_rate := 1;
       days_since_purchase := 10 |}
  = Ok 12%float.
Proof. vm_compute. reflexivity. Qed.

(** The scenario of the specification: 5 of 100 units left, 25 days to go,
    5 units eaten a day, low perishability: sub-risks 10, 20, 5 and 20, and
    the score 13. *)
Example rice_scenario :
  _calculate_shelf_life_risk rice = 10
  /\ _calculate_consumption_risk rice = Ok 20
  /\ _calculate_quantity_risk rice = Ok 5
  /\ _calculate_perishability_risk rice = 20
  /\ calculate_waste_risk rice = Ok 13%float.
Proof. vm_compute. repeat split; reflexivity. Qed.

(** C1, as stated, fails when the initial quantity is zero: the code returns
    the sub-risk 0 there, where the step function applied to a percentage
    of 0 gives 5. *)
Lemma quantity_risk_zero_initial_counterexample :
  status empty_rice = Active
  /\ PrimFloat.eqb (initial_quantity empty_rice) 0 = true
  /\ _calculate_quantity_risk empty_rice = Ok 0
  /\ Spec.quantity_risk empty_rice = 5
  /\ _calculate_quantity_risk empty_rice <> Ok (Spec.quantity_risk empty_rice).
Proof. vm_compute. repeat split; discriminate. Qed.

(** C1 (amended): the quantity sub-risk is 0 when the initial quantity is
    zero; otherwise it is the step function of
    [quantity / initial_quantity * 100]: above 80 gives 70, above 60 gives
    50, above 40 gives 30, above 20 gives 15, anything else 5. *)
Theorem quantity_risk_step (it : FoodItem) :
  _calculate_quantity_risk it
  = Ok (if PrimFloat.eqb (initial_quantity it) 0 then 0
        else Spec.quantity_step
               (quantity it / initial_quantity it * 100)%float).
Proof.
  unfold _calculate_quantity_risk, truediv, Spec.quantity_step.
  destruct (PrimFloat.eqb (initial_quantity it) 0); simpl; [reflexivity|].
  repeat match goal with
         | |- context [if ?b then _ else _] => destruct b
         end; reflexivity.
Qed.

(** Away from a zero initial quantity the code and the step function of the
    specification agree. *)
Lemma quantity_risk_nonzero_initial (it : FoodItem) :
  PrimFloat.eqb (initial_quantity it) 0 = false ->
  _calculate_quantity_risk it = Ok (Spec.quantity_risk it).
Proof.
  intros Hnz.
  unfold _calculate_quantity_risk, truediv, Spec.quantity_risk,
    Spec.percentageRemaining, Spec.quantity_step.
  rewrite Hnz. simpl.
  repeat match goal with
         | |- context [if ?b then _ else _] => destruct b
         end; reflexivity.
Qed.

(** A float that is at least zero and does not compare equal to zero is
    greater than zero. *)
Lemma positive_of_nonneg_nonzero (r : float) :
  PrimFloat.leb 0 r = true -> PrimFloat.eqb r 0 = false ->
  PrimFloat.ltb 0 r = true.
Proof.
  rewrite FloatAxioms.leb_spec, FloatAxioms.eqb_spec, FloatAxioms.ltb_spec.
  change (Prim2SF 0) with (S754_zero false).
  destruct (Prim2SF r) as [ [|] | [|] | | [|] m e ]; cbn; congruence.
Qed.

(** C6: for an item whose consumption rate is not negative, the consumption
    sub-risk is 100 when the days until expiry are unknown or at most 0;
    otherwise, with a zero rate, 80 if more than 3 days have passed since
    the purchase and 50 if not; otherwise, with
    [daysToConsume = quantity / rate], 90 above 1.5 times the days until
    expiry, 70 above the days until expiry, 50 above 0.8 times the days
    until expiry, and 20 in the remaining case. *)
Theorem consumption_risk_rule (it : FoodItem) :
  PrimFloat.leb 0 (consumption_rate it) = true ->
  _calculate_consumption_risk it = Ok (Spec.consumption_risk it).
Proof.
  intros Hrate.
  unfold _calculate_consumption_risk, Spec.consumption_risk.
  destruct (days_until_expiry it) as [d|]; [|reflexivity].
  destruct (d <=? 0); [reflexivity|].
  destruct (PrimFloat.eqb (consumption_rate it) 0) eqn:Hzero.
  - rewrite Z.gtb_ltb. destruct (3 <? days_since_purchase it); reflexivity.
  - rewrite (positive_of_nonneg_nonzero _ Hrate Hzero).
    unfold truediv. rewrite Hzero. simpl. unfold Spec.pace_step.
    repeat match goal with
           | |- context [if ?b then _ else _] => destruct b
           end; reflexivity.
Qed.

Lemma consumption_risk_rule_witness :
  PrimFloat.leb 0 (consumption_rate rice) = true
  /\ _calculate_consumption_risk rice = Ok (Spec.consumption_risk rice)
  /\ Spec.consumption_risk rice = 20.
Proof.
  split; [reflexivity|].
  split; [apply consumption_risk_rule; reflexivity | reflexivity].
Defined.

(** With a negative rate, which neither the data model nor the logging of
    consumption lets through, the code does not divide: it takes 999 days
    to consume. *)
Lemma consumption_risk_negative_rate (it : FoodItem) (d : Z) :
  days_until_expiry it = Some d -> 0 < d ->
  PrimFloat.eqb (consumption_rate it) 0 = false ->
  PrimFloat.ltb 0 (consumption_rate it) = false ->
  _calculate_consumption_risk it = Ok (Spec.pace_step 999 d).
Proof.
  intros Hd Hpos Hzero Hneg.
  unfold _calculate_consumption_risk. rewrite Hd, Hzero, Hneg.
  destruct (Z.leb_spec d 0); [lia|]. simpl. unfold Spec.pace_step.
  repeat match goal with
         | |- context [if ?b then _ else _] => destruct b
         end; reflexivity.
Qed.

(** C4: [should_generate_alert] answers true exactly when the stored score
    is at least the threshold, or the days until expiry are known and are
    at most 3 or negative; hence it answers true for every item that has
    expired, whatever its score and the threshold. *)
Theorem should_alert_rule (it : FoodItem) (threshold : float) :
  (should_generate_alert it threshold = true <->
   PrimFloat.leb threshold (waste_risk_score it) = true
   \/ exists d, days_until_expiry it = Some d /\ (d <= 3 \/ d < 0))
  /\ (forall d, days_until_expiry it = Some d -> d < 0 ->
      should_generate_alert it threshold = true).
Proof.
  unfold should_generate_alert.
  destruct (PrimFloat.leb threshold (waste_risk_score it)).
  { split; [tauto|reflexivity]. }
  destruct (days_until_expiry it) as [d|].
  - destruct (Z.leb_spec d 3); destruct (Z.ltb_spec d 0); split.
    all: try (intros d' [= <-] ?; first [reflexivity | lia]).
    all: split; try reflexivity; try discriminate.
    all: try (intros _; right; exists d; split; [reflexivity|lia]).
    all: intros [?|(d' & [= <-] & ?)]; [discriminate|lia].
  - split; [|discriminate].
    split; [discriminate|].
    intros [?|(d' & ? & _)]; discriminate.
Qed.

Lemma should_alert_rule_witness :
  days_until_expiry salmon = Some (-1) /\ -1 < 0
  /\ PrimFloat.leb default_threshold (waste_risk_score salmon) = false
  /\ should_generate_alert salmon default_threshold = true.
Proof.
  split; [reflexivity|]. split; [lia|]. split; [reflexivity|].
  apply (proj2 (should_alert_rule salmon default_threshold) (-1));
    [reflexivity|lia].
Defined.

(** ** Properties of the recommendation engine *)

(** C5: [get_alert_message] produces the one message of the first rule that
    applies, in the order: expired, expires today (at most 1 day), expires
    in N days (at most 3 days), high risk (score at least 70), needs
    attention (score at least 40), status update.  When the days until
    expiry are known and at most 3 the rule, hence the message, does not
    depend on the score. *)
Theorem alert_message_first_match (it : FoodItem) :
  get_alert_message it
  = Spec.alert_text (item_name it)
      (Spec.alert_rule (days_until_expiry it) (waste_risk_score it))
  /\ (forall score : float,
        known_le (days_until_expiry it) 3 = true ->
        Spec.alert_rule (days_until_expiry it) score
        = Spec.alert_rule (days_until_expiry it) (waste_risk_score it)).
Proof.
  unfold get_alert_message, Spec.alert_rule, known_le.
  destruct (days_until_expiry it) as [d|].
  - destruct (Z.ltb_spec d 0); [split; reflexivity|].
    destruct (Z.leb_spec d 1); [split; reflexivity|].
    destruct (Z.leb_spec d 3); [split; reflexivity|].
    split; [|discriminate].
    destruct (PrimFloat.leb 70 (waste_risk_score it)); [reflexivity|].
    destruct (PrimFloat.leb 40 (waste_risk_score it)); reflexivity.
  - split; [|discriminate].
    destruct (PrimFloat.leb 70 (waste_risk_score it)); [reflexivity|].
    destruct (PrimFloat.leb 40 (waste_risk_score it)); reflexivity.
Qed.

Lemma alert_message_first_match_witness :
  known_le (days_until_expiry salmon) 3 = true
  /\ Spec.alert_rule (days_until_expiry salmon) 95
     = Spec.alert_rule (days_until_expiry salmon) (waste_risk_score salmon)
  /\ get_alert_message salmon
     = "Salmon has expired! Please check and dispose if spoiled."%string.
Proof.
  split; [reflexivity|].
  split;
    [apply (proj2 (alert_message_first_match salmon) 95%float); reflexivity
    |reflexivity].
Defined.

Lemma tier_of_medium (it : FoodItem) :
  Spec.medium_tier it = true ->
  generate_recommendations it
  = _get_medium_risk_recommendations it
    ++ match PRESERVATION_METHODS !! category_name (category it) with
       | Some methods =>
           [ {| type := Preserve; priority := 2;
                text := "Preservation options: "
                        +:+ join ", " (take 2 methods) |} ]
       | None => []
       end
    ++ match RECIPE_SUGGESTIONS !! category_name (category it) with
       | Some ideas =>
           [ {| type := RecipeSuggestion; priority := 3;
                text := "Try making: " +:+ join " or " (take 2 ideas) |} ]
       | None => []
       end.
Proof.
  unfold Spec.medium_tier, Spec.urgent_tier, generate_recommendations.
  intros H. apply andb_prop in H. destruct H as [Hu Hm].
  apply negb_true_iff in Hu. rewrite Hu, Hm. reflexivity.
Qed.

(** Every entry produced by a tier is a Use Soon or a Donate entry. *)
Lemma tier_entry_types (it : FoodItem) (r : Recommendation) :
  In r (_get_urgent_recommendations it)
  \/ In r (_get_medium_risk_recommendations it)
  \/ In r (_get_low_risk_recommendations it) ->
  type r = UseSoon \/ type r = Donate.
Proof.
  unfold _get_urgent_recommendations, _get_medium_risk_recommendations,
    _get_low_risk_recommendations.
  intros [H|[H|H]].
  - destruct H as [<-|H].
    + destruct (days_until_expiry it) as [d|]; [|auto].
      repeat match goal with
             | |- context [if ?b then _ else _] => destruct b
             end; auto.
    + destruct (PrimFloat.ltb _ _); simpl in H; [|tauto].
      destruct H as [<-|[]]; auto.
  - apply in_app_iff in H. destruct H as [H|H].
    + destruct (days_until_expiry it); simpl in H; [|tauto].
      destruct H as [<-|[]]; auto.
    + destruct (PrimFloat.eqb _ _); [|destruct (PrimFloat.ltb _ _)];
        simpl in H; try tauto; destruct H as [<-|[]]; auto.
  - destruct H as [<-|[]]; auto.
Qed.

(** C2, as stated, fails for an item without an expiry date: a medium-tier
    item with a score of 50, no known expiry and a consumption rate of 0.5
    gets no Use Soon entry at all. *)
Lemma medium_tier_undated_counterexample :
  status undated_rice = Active
  /\ Spec.medium_tier undated_rice = true
  /\ days_until_expiry undated_rice = None
  /\ generate_recommendations undated_rice
     = [ {| type := Preserve; priority := 2;
            text := "Preservation options: Store in airtight containers, Keep in cool, dry place" |} ]
  /\ ~ (exists r, In r (generate_recommendations undated_rice)
                  /\ type r = UseSoon /\ priority r = 2).
Proof.
  assert (Hrecs : generate_recommendations undated_rice
     = [ {| type := Preserve; priority := 2;
            text := "Preservation options: Store in airtight containers, Keep in cool, dry place" |} ])
    by (vm_compute; reflexivity).
  repeat split; try reflexivity; try exact Hrecs.
  rewrite Hrecs. intros (r & [<-|[]] & Hty & _). discriminate.
Qed.

Lemma table_entry_types (it : FoodItem) (r : Recommendation) :
  In r (generate_recommendations it) ->
  type r = UseSoon \/ type r = Donate
  \/ (type r = Preserve
      /\ exists methods,
           PRESERVATION_METHODS !! category_name (category it) = Some methods
           /\ r = {| type := Preserve; priority := 2;
                     text := "Preservation options: "
                             +:+ join ", " (take 2 methods) |})
  \/ (type r = RecipeSuggestion
      /\ exists ideas,
           RECIPE_SUGGESTIONS !! category_name (category it) = Some ideas
           /\ r = {| type := RecipeSuggestion; priority := 3;
                     text := "Try making: "
                             +:+ join " or " (take 2 ideas) |}).
Proof.
  unfold generate_recommendations. intros H.
  apply in_app_iff in H. destruct H as [H|H].
  - assert (type r = UseSoon \/ type r = Donate) as [?|?]; [|tauto|tauto].
    apply (tier_entry_types it).
    destruct (_ || _); [tauto|]. destruct (_ || _); tauto.
  - apply in_app_iff in H. destruct H as [H|H].
    + destruct (PRESERVATION_METHODS !! _) as [methods|]; simpl in H; [|tauto].
      destruct H as [<-|[]]. right; right; left. eauto.
    + destruct (RECIPE_SUGGESTIONS !! _) as [ideas|]; simpl in H; [|tauto].
      destruct H as [<-|[]]. right; right; right. eauto.
Qed.

(** C2 (amended): for an item of the medium tier whose days until expiry
    are known, the list contains a Use Soon entry of priority 2 whose text
    names the days remaining.  When the days until expiry are unknown that
    entry is not emitted: the Use Soon entries of the list are then only the
    entries on the consumption rate, if any. *)
Theorem medium_tier_planning_entry (it : FoodItem) :
  Spec.medium_tier it = true ->
  match days_until_expiry it with
  | Some d =>
      In {| type := UseSoon; priority := 2;
            text := "📅 Plan to use " +:+ item_name it +:+ " within "
                    +:+ str d +:+ " days." |}
         (generate_recommendations it)
  | None =>
      forall r, In r (generate_recommendations it) -> type r = UseSoon ->
        r = {| type := UseSoon; priority := 2;
               text := "⏰ Start using " +:+ item_name it +:+
                       " - no consumption recorded yet." |}
        \/ r = {| type := UseSoon; priority := 2;
                  text := "🐌 Slow consumption rate for " +:+ item_name it +:+
                          ". Increase usage frequency." |}
  end.
Proof.
  intros Hmed. rewrite (tier_of_medium it Hmed).
  unfold _get_medium_risk_recommendations.
  destruct (days_until_expiry it) as [d|].
  - simpl. left. reflexivity.
  - intros r Hin Hty. simpl in Hin.
    apply in_app_iff in Hin. destruct Hin as [Hin|Hin].
    + destruct (PrimFloat.eqb _ _); [|destruct (PrimFloat.ltb _ _)];
        simpl in Hin; try tauto; destruct Hin as [<-|[]]; auto.
    + apply in_app_iff in Hin. destruct Hin as [Hin|Hin].
      * destruct (PRESERVATION_METHODS !! _); simpl in Hin; [|tauto].
        destruct Hin as [<-|[]]. discriminate.
      * destruct (RECIPE_SUGGESTIONS !! _); simpl in Hin; [|tauto].
        destruct Hin as [<-|[]]. discriminate.
Qed.

Lemma medium_tier_planning_entry_witness :
  Spec.medium_tier
    (with_days_until_expiry (Some 6) undated_rice) = true
  /\ In {| type := UseSoon; priority := 2;
           text := "📅 Plan to use Rice within 6 days." |}
        (generate_recommendations
           (with_days_until_expiry (Some 6) undated_rice)).
Proof.
  split; [reflexivity|].
  apply (medium_tier_planning_entry
           (with_days_until_expiry (Some 6) undated_rice)).
  reflexivity.
Defined.

(** C9: an item whose category is in the preservation table and not in the
    recipe table gets a Preserve entry of priority 2 built from the first
    two preservation methods of the category, and no Recipe Suggestion
    entry.  More generally a category that is missing from a table gets no
    entry of the corresponding kind; [generate_recommendations] is a total
    function, so a missing category is never an error. *)
Theorem preserve_without_recipe (it : FoodItem) :
  (forall methods : list string,
     PRESERVATION_METHODS !! category_name (category it) = Some methods ->
     RECIPE_SUGGESTIONS !! category_name (category it) = None ->
     In {| type := Preserve; priority := 2;
           text := "Preservation options: " +:+ join ", " (take 2 methods) |}
        (generate_recommendations it)
     /\ forall r, In r (generate_recommendations it) ->
                  type r <> RecipeSuggestion)
  /\ (PRESERVATION_METHODS !! category_name (category it) = None ->
      forall r, In r (generate_recommendations it) -> type r <> Preserve)
  /\ (RECIPE_SUGGESTIONS !! category_name (category it) = None ->
      forall r, In r (generate_recommendations it) ->
                type r <> RecipeSuggestion).
Proof.
  assert (Hrecipe :
    RECIPE_SUGGESTIONS !! category_name (category it) = None ->
    forall r, In r (generate_recommendations it) ->
              type r <> RecipeSuggestion).
  { intros Hnone r Hin.
    destruct (table_entry_types it r Hin)
      as [->|[->|[[-> _]|[_ (ideas & Hsome & _)]]]]; congruence. }
  split; [|split; [|exact Hrecipe]].
  - intros methods Hsome Hnone. split; [|exact (Hrecipe Hnone)].
    unfold generate_recommendations. rewrite Hsome.
    apply in_app_iff. right. apply in_app_iff. left. simpl. auto.
  - intros Hnone r Hin.
    destruct (table_entry_types it r Hin)
      as [->|[->|[[_ (methods & Hsome & _)]|[-> _]]]]; congruence.
Qed.

Lemma preserve_without_recipe_witness :
  PRESERVATION_METHODS !! category_name (category salmon)
  = Some ["Freeze immediately if not using within 24 hours";
          "Cook and use in salads or pasta";
          "Smoke or cure for preservation";
          "Store on ice in refrigerator"]%string
  /\ RECIPE_SUGGESTIONS !! category_name (category salmon) = None
  /\ In {| type := Preserve; priority := 2;
           text := "Preservation options: Freeze immediately if not using within 24 hours, Cook and use in salads or pasta" |}
        (generate_recommendations salmon)
  /\ forall r, In r (generate_recommendations salmon) ->
               type r <> RecipeSuggestion.
Proof.
  assert (Hp : PRESERVATION_METHODS !! category_name (category salmon)
               = Some ["Freeze immediately if not using within 24 hours";
                       "Cook and use in salads or pasta";
                       "Smoke or cure for preservation";
                       "Store on ice in refrigerator"]%string)
    by (vm_compute; reflexivity).
  assert (Hr : RECIPE_SUGGESTIONS !! category_name (category salmon) = None)
    by (vm_compute; reflexivity).
  split; [exact Hp|]. split; [exact Hr|].
  exact (proj1 (preserve_without_recipe salmon) _ Hp Hr).
Defined.

(** ** Further properties of the risk scorer *)

Lemma Prim2SF_70 : Prim2SF 70 = S754_finite false 4925812092436480 (-46).
Proof. vm_compute. reflexivity. Qed.

Lemma Prim2SF_40 : Prim2SF 40 = S754_finite false 5629499534213120 (-47).
Proof. vm_compute. reflexivity. Qed.

(** Below a positive bound with a larger exponent, with any mantissa. *)
Lemma SFleb_lower (m1 m2 : positive) (e1 e2 : Z) (y : spec_float) :
  e2 < e1 ->
  SFleb (S754_finite false m1 e1) y = true ->
  SFleb (S754_finite false m2 e2) y = true.
Proof.
  intros He. unfold SFleb, SFcompare.
  destruct y as [ [|] | [|] | | [|] m e ]; try congruence.
  destruct (Z.compare_spec e1 e); destruct (Z.compare_spec e2 e);
    try lia; congruence.
Qed.

(** On numbers, [y < b] is the negation of [b <= y]. *)
Lemma SFltb_negb_leb (m0 : positive) (e0 : Z) (y : spec_float) :
  y <> S754_nan ->
  SFltb y (S754_finite false m0 e0)
  = negb (SFleb (S754_finite false m0 e0) y).
Proof.
  intros Hnan. unfold SFleb, SFltb, SFcompare.
  destruct y as [ [|] | [|] | | [|] m e ]; try reflexivity; try congruence.
  rewrite (Z.compare_antisym e e0).
  destruct (e ?= e0); try reflexivity. simpl CompOpp.
  change (PosDef.Pos.compare_cont Eq m0 m) with (Pos.compare m0 m).
  change (PosDef.Pos.compare_cont Eq m m0) with (Pos.compare m m0).
  rewrite (Pos.compare_antisym m m0).
  destruct (Pos.compare m m0); reflexivity.
Qed.

Lemma leb_70_leb_40 (x : float) :
  PrimFloat.leb 70 x = true -> PrimFloat.leb 40 x = true.
Proof.
  rewrite !FloatAxioms.leb_spec, Prim2SF_70, Prim2SF_40.
  apply SFleb_lower. lia.
Qed.

Lemma not_leb_40_not_leb_70 (x : float) :
  PrimFloat.leb 40 x = false -> PrimFloat.leb 70 x = false.
Proof.
  intros H40. destruct (PrimFloat.leb 70 x) eqn:H70; [|reflexivity].
  rewrite (leb_70_leb_40 x H70) in H40. discriminate.
Qed.

Lemma ltb_70_negb_leb (x : float) :
  PrimFloat.leb 40 x = true ->
  PrimFloat.ltb x 70 = negb (PrimFloat.leb 70 x).
Proof.
  rewrite !FloatAxioms.leb_spec, FloatAxioms.ltb_spec, Prim2SF_70, Prim2SF_40.
  intros H. apply SFltb_negb_leb. intros Hnan. rewrite Hnan in H.
  discriminate.
Qed.

Lemma every_score_with_spec (ss cs : list Z) (P : float -> bool)
      (s c q p : Z) :
  every_score_with ss cs P = true ->
  In s ss -> In c cs -> In q quantity_values -> In p perishability_values ->
  P (clamp (weighted_sum s c q p)) = true.
Proof.
  unfold every_score_with. intros H Hs Hc Hq Hp.
  rewrite forallb_forall in H. specialize (H s Hs).
  rewrite forallb_forall in H. specialize (H c Hc).
  rewrite forallb_forall in H. specialize (H q Hq).
  rewrite forallb_forall in H. exact (H p Hp).
Qed.

Lemma risk_level_high (r : float) :
  PrimFloat.leb 70 r = true <-> get_risk_level r = "High"%string.
Proof.
  unfold get_risk_level. destruct (PrimFloat.leb 70 r).
  - tauto.
  - destruct (PrimFloat.leb 40 r); split; discriminate.
Qed.

Lemma risk_level_medium (r : float) :
  PrimFloat.leb 70 r = false /\ PrimFloat.leb 40 r = true
  <-> get_risk_level r = "Medium"%string.
Proof.
  unfold get_risk_level. destruct (PrimFloat.leb 70 r).
  - split; [intros [? _]|]; discriminate.
  - destruct (PrimFloat.leb 40 r); split; try tauto; try discriminate.
    intros [_ ?]; discriminate.
Qed.

Lemma expired_scores :
  every_score_with [100] [100]
    (fun r => PrimFloat.leb 72 r && PrimFloat.leb 70 r) = true.
Proof. vm_compute. reflexivity. Qed.

Lemma long_dated_scores :
  every_score_with [10] [80; 50; 90; 70; 20]
    (fun r => PrimFloat.leb r 53 && negb (PrimFloat.leb 70 r)) = true.
Proof. vm_compute. reflexivity. Qed.


Lemma scores_monotone_checked :
  scores_monotone_on sub_risk_quadruples = true.
Proof. vm_compute. reflexivity. Qed.

Lemma consumption_risk_before_expiry (it : FoodItem) (d : Z) :
  days_until_expiry it = Some d -> 0 < d ->
  exists c, _calculate_consumption_risk it = Ok c
            /\ In c [80; 50; 90; 70; 20].
Proof.
  intros Hd Hpos. unfold _calculate_consumption_risk, truediv. rewrite Hd.
  destruct (Z.leb_spec d 0); [lia|].
  destruct (PrimFloat.eqb (consumption_rate it) 0).
  - destruct (days_since_purchase it >? 3);
      eexists; (split; [reflexivity|simpl; auto]).
  - destruct (PrimFloat.ltb 0 (consumption_rate it)); simpl;
      repeat match goal with
             | |- context [if ?b then _ else _] => destruct b
             end; eexists; (split; [reflexivity|simpl; auto 10]).
Qed.

Lemma consumption_risk_at_expiry (it : FoodItem) :
  known_le (days_until_expiry it) 0 = true \/ days_until_expiry it = None ->
  _calculate_consumption_risk it = Ok 100.
Proof.
  unfold _calculate_consumption_risk, known_le.
  destruct (days_until_expiry it) as [d|]; [|reflexivity].
  intros [->|?]; [reflexivity|discriminate].
Qed.

(** X1: an active item past its expiry date scores at least 72, so that
    [get_risk_level] rates it 'High' and [get_risk_color] gives 'danger',
    whatever its quantities, consumption and category are. *)
Theorem expired_item_rated_high (it : FoodItem) (d : Z) :
  status it = Active ->
  days_until_expiry it = Some d -> d < 0 ->
  exists r, calculate_waste_risk it = Ok r
            /\ PrimFloat.leb 72 r = true
            /\ get_risk_level r = "High"%string
            /\ get_risk_color r = "danger"%string.
Proof.
  intros Hact Hd Hneg.
  destruct (active_score_shape it Hact)
    as (s & c & q & p & Hr & Hs & Hc & _ & _ & _ & _ & Hq & Hp).
  assert (s = 100) as ->.
  { rewrite Hs. unfold _calculate_shelf_life_risk. rewrite Hd.
    destruct (Z.ltb_spec d 0); [reflexivity|lia]. }
  assert (c = 100) as ->.
  { rewrite consumption_risk_at_expiry in Hc; [congruence|].
    left. rewrite Hd. simpl. apply Z.leb_le. lia. }
  pose proof (every_score_with_spec _ _ _ 100 100 q p expired_scores) as H.
  simpl in H. specialize (H (or_introl eq_refl) (or_introl eq_refl) Hq Hp).
  apply andb_prop in H. destruct H as [H72 H70].
  eexists. split; [exact Hr|]. split; [exact H72|].
  unfold get_risk_level, get_risk_color. rewrite H70. split; reflexivity.
Qed.

Lemma expired_item_rated_high_witness :
  exists r, calculate_waste_risk salmon = Ok r
            /\ PrimFloat.leb 72 r = true
            /\ get_risk_level r = "High"%string
            /\ get_risk_color r = "danger"%string.
Proof.
  apply (expired_item_rated_high salmon (-1)); [reflexivity|reflexivity|lia].
Defined.

(** X2: an active item with more than 20 days left scores at most 53, so
    that it is never rated 'High'. *)
Theorem long_dated_item_never_high (it : FoodItem) (d : Z) :
  status it = Active ->
  days_until_expiry it = Some d -> 20 < d ->
  exists r, calculate_waste_risk it = Ok r
            /\ PrimFloat.leb r 53 = true
            /\ get_risk_level r <> "High"%string.
Proof.
  intros Hact Hd Hlong.
  destruct (active_score_shape it Hact)
    as (s & c & q & p & Hr & Hs & Hc & _ & _ & _ & _ & Hq & Hp).
  assert (s = 10) as ->.
  { rewrite Hs. unfold _calculate_shelf_life_risk. rewrite Hd.
    repeat match goal with
           | |- context [?a <? ?b] => destruct (Z.ltb_spec a b)
           | |- context [?a <=? ?b] => destruct (Z.leb_spec a b)
           end; lia. }
  destruct (consumption_risk_before_expiry it d Hd ltac:(lia))
    as (c' & Hc' & Hcin).
  assert (c' = c) as -> by congruence.
  pose proof (every_score_with_spec _ _ _ 10 c q p long_dated_scores
                (or_introl eq_refl) Hcin Hq Hp) as H.
  simpl in H. apply andb_prop in H. destruct H as [H53 H70].
  apply negb_true_iff in H70.
  eexists. split; [exact Hr|]. split; [exact H53|].
  intros Hhigh. apply risk_level_high in Hhigh. congruence.
Qed.

Lemma long_dated_item_never_high_witness :
  exists r, calculate_waste_risk rice = Ok r
            /\ PrimFloat.leb r 53 = true
            /\ get_risk_level r <> "High"%string.
Proof.
  apply (long_dated_item_never_high rice 25); [reflexivity|reflexivity|lia].
Defined.

Lemma quadruple_listed (s c q p : Z) :
  In s shelf_life_values -> In c consumption_values ->
  In q quantity_values -> In p perishability_values ->
  In (s, c, q, p) sub_risk_quadruples.
Proof.
  intros Hs Hc Hq Hp. apply list_elem_of_In. unfold sub_risk_quadruples.
  apply list_elem_of_In in Hs, Hc, Hq, Hp.
  apply list_elem_of_bind. exists s. split; [|exact Hs].
  apply list_elem_of_bind. exists c. split; [|exact Hc].
  apply list_elem_of_bind. exists q. split; [|exact Hq].
  apply list_elem_of_bind. exists p. split; [|exact Hp].
  apply list_elem_of_singleton. reflexivity.
Qed.

Lemma scores_monotone_on_spec (l : list (Z * Z * Z * Z))
      (a b : Z * Z * Z * Z) :
  scores_monotone_on l = true ->
  In a l -> In b l ->
  quadruple_le a b = true ->
  PrimFloat.leb (quadruple_score a) (quadruple_score b) = true.
Proof.
  unfold scores_monotone_on. intros H Ha Hb Hle.
  rewrite forallb_forall in H. specialize (H a Ha).
  rewrite forallb_forall in H. specialize (H b Hb).
  rewrite Hle in H. exact H.
Qed.

(** X3: the score is monotone in the four sub-risks: of two active items,
    the one whose sub-risks are all at most those of the other does not
    score higher. *)
Theorem score_monotone_in_sub_risks (it1 it2 : FoodItem) (c1 c2 q1 q2 : Z) :
  status it1 = Active -> status it2 = Active ->
  _calculate_consumption_risk it1 = Ok c1 ->
  _calculate_consumption_risk it2 = Ok c2 ->
  _calculate_quantity_risk it1 = Ok q1 ->
  _calculate_quantity_risk it2 = Ok q2 ->
  _calculate_shelf_life_risk it1 <= _calculate_shelf_life_risk it2 ->
  c1 <= c2 -> q1 <= q2 ->
  _calculate_perishability_risk it1 <= _calculate_perishability_risk it2 ->
  exists r1 r2, calculate_waste_risk it1 = Ok r1
                /\ calculate_waste_risk it2 = Ok r2
                /\ PrimFloat.leb r1 r2 = true.
Proof.
  intros Ha1 Ha2 Hc1 Hc2 Hq1 Hq2 Hs Hc Hq Hp.
  destruct (active_score_shape it1 Ha1)
    as (s1 & c1' & q1' & p1 & Hr1 & -> & Hc1' & Hq1' & -> & Is1 & Ic1 & Iq1 & Ip1).
  destruct (active_score_shape it2 Ha2)
    as (s2 & c2' & q2' & p2 & Hr2 & -> & Hc2' & Hq2' & -> & Is2 & Ic2 & Iq2 & Ip2).
  assert (c1' = c1) as -> by congruence.
  assert (c2' = c2) as -> by congruence.
  assert (q1' = q1) as -> by congruence.
  assert (q2' = q2) as -> by congruence.
  assert (Hle : quadruple_le (_calculate_shelf_life_risk it1, c1, q1,
                              _calculate_perishability_risk it1)
                             (_calculate_shelf_life_risk it2, c2, q2,
                              _calculate_perishability_risk it2) = true).
  { unfold quadruple_le. rewrite !andb_true_iff, !Z.leb_le. tauto. }
  pose proof (scores_monotone_on_spec _ _ _ scores_monotone_checked
                (quadruple_listed _ _ _ _ Is1 Ic1 Iq1 Ip1)
                (quadruple_listed _ _ _ _ Is2 Ic2 Iq2 Ip2) Hle) as H.
  exists (clamp (weighted_sum (_calculate_shelf_life_risk it1) c1 q1
                              (_calculate_perishability_risk it1))),
         (clamp (weighted_sum (_calculate_shelf_life_risk it2) c2 q2
                              (_calculate_perishability_risk it2))).
  split; [exact Hr1|]. split; [exact Hr2|exact H].
Qed.

Lemma score_monotone_in_sub_risks_witness :
  exists r1 r2, calculate_waste_risk rice = Ok r1
                /\ calculate_waste_risk salmon = Ok r2
                /\ PrimFloat.leb r1 r2 = true.
Proof.
  apply (score_monotone_in_sub_risks rice salmon 20 100 5 30);
    try reflexivity; vm_compute; discriminate.
Defined.

(** ** Further properties of the recommendation engine *)

(** Two messages about the same item differ as soon as what follows the
    name differs. *)
Ltac differ_after_name :=
  match goal with
  | H : String.app ?n _ = String.app ?n _ |- _ =>
      apply (inj (String.app n)) in H; discriminate H
  end.

(** X4: [get_alert_message] gives the generic status message exactly when
    [should_generate_alert] with the default threshold declines the alert:
    an item that deserves an alert always gets a message that says why. *)
Theorem generic_message_iff_no_alert (it : FoodItem) :
  get_alert_message it = item_name it +:+ " status update."
  <-> should_generate_alert it default_threshold = false.
Proof.
  unfold get_alert_message, should_generate_alert, default_threshold.
  destruct (PrimFloat.leb 40 (waste_risk_score it)) eqn:H40.
  - destruct (PrimFloat.leb 70 (waste_risk_score it));
      destruct (days_until_expiry it) as [d|];
      repeat match goal with
             | |- context [if ?b then _ else _] => destruct b
             end;
      split; intros Hmsg; try discriminate Hmsg; differ_after_name.
  - rewrite (not_leb_40_not_leb_70 _ H40).
    destruct (days_until_expiry it) as [d|]; [|tauto].
    destruct (Z.ltb_spec d 0); destruct (Z.leb_spec d 1);
      destruct (Z.leb_spec d 3); try lia;
      split; intros Hmsg; try reflexivity; try discriminate Hmsg;
      differ_after_name.
Qed.

(** The entry of the low tier. *)
Lemma low_tier_entry (it : FoodItem) :
  _get_low_risk_recommendations it
  = [ {| type := UseSoon; priority := 3;
         text := "✅ " +:+ item_name it +:+
                 " is being consumed well. Continue current usage pattern." |} ].
Proof. reflexivity. Qed.

Lemma urgent_and_medium_priorities (it : FoodItem) (r : Recommendation) :
  In r (_get_urgent_recommendations it)
  \/ In r (_get_medium_risk_recommendations it) ->
  priority r = 1 \/ priority r = 2.
Proof.
  unfold _get_urgent_recommendations, _get_medium_risk_recommendations.
  intros [H|H].
  - destruct H as [<-|H].
    + destruct (days_until_expiry it) as [d|]; [|auto].
      repeat match goal with
             | |- context [if ?b then _ else _] => destruct b
             end; auto.
    + destruct (PrimFloat.ltb _ _); simpl in H; [|tauto].
      destruct H as [<-|[]]; auto.
  - apply in_app_iff in H. destruct H as [H|H].
    + destruct (days_until_expiry it); simpl in H; [|tauto].
      destruct H as [<-|[]]; auto.
    + destruct (PrimFloat.eqb _ _); [|destruct (PrimFloat.ltb _ _)];
        simpl in H; try tauto; destruct H as [<-|[]]; auto.
Qed.

(** X5: alerts and advice agree.  An item for which [should_generate_alert]
    (default threshold) asks for an alert never receives the reassuring
    low-tier entry: its list has no Use Soon entry of priority 3.  An item
    without alert and not within 7 days of a known expiry receives that
    entry first. *)
Theorem alert_excludes_low_tier (it : FoodItem) :
  (should_generate_alert it default_threshold = true ->
   forall r, In r (generate_recommendations it) ->
             type r = UseSoon -> priority r <> 3)
  /\ (should_generate_alert it default_threshold = false ->
      known_le (days_until_expiry it) 7 = false ->
      exists rest,
        generate_recommendations it
        = {| type := UseSoon; priority := 3;
             text := "✅ " +:+ item_name it +:+
                     " is being consumed well. Continue current usage pattern." |}
          :: rest).
Proof.
  unfold should_generate_alert, default_threshold, generate_recommendations.
  split.
  - intros Halert r Hin Hty.
    apply in_app_iff in Hin. destruct Hin as [Hin|Hin].
    + assert (In r (_get_urgent_recommendations it)
              \/ In r (_get_medium_risk_recommendations it)) as Htier.
      { destruct (PrimFloat.leb 40 (waste_risk_score it)) eqn:H40.
        - destruct (PrimFloat.leb 70 (waste_risk_score it)); cbn [orb] in Hin;
            [tauto|].
          destruct (known_le _ 3); cbn [orb] in Hin; tauto.
        - destruct (days_until_expiry it) as [d|]; [|discriminate].
          unfold known_le in Hin.
          destruct (Z.leb_spec d 3).
          + rewrite orb_true_r in Hin. tauto.
          + destruct (Z.ltb_spec d 0); [lia|discriminate]. }
      destruct (urgent_and_medium_priorities it r Htier) as [->| ->]; lia.
    + apply in_app_iff in Hin. destruct Hin as [Hin|Hin].
      * destruct (PRESERVATION_METHODS !! _); simpl in Hin; [|tauto].
        destruct Hin as [<-|[]]. discriminate.
      * destruct (RECIPE_SUGGESTIONS !! _); simpl in Hin; [|tauto].
        destruct Hin as [<-|[]]. discriminate.
  - intros Hquiet H7.
    destruct (PrimFloat.leb 40 (waste_risk_score it)) eqn:H40;
      [discriminate|].
    rewrite (not_leb_40_not_leb_70 _ H40), H7.
    assert (known_le (days_until_expiry it) 3 = false) as ->.
    { unfold known_le in *. destruct (days_until_expiry it) as [d|];
        [|reflexivity].
      apply Z.leb_gt in H7. apply Z.leb_gt. lia. }
    simpl. eexists. reflexivity.
Qed.

Lemma alert_excludes_low_tier_witness :
  should_generate_alert salmon default_threshold = true
  /\ forall r, In r (generate_recommendations salmon) ->
               type r = UseSoon -> priority r <> 3.
Proof.
  split; [reflexivity|].
  apply (proj1 (alert_excludes_low_tier salmon)). reflexivity.
Defined.

Lemma table_entries_not_donate (it : FoodItem) (r : Recommendation) :
  In r (match PRESERVATION_METHODS !! category_name (category it) with
        | Some methods =>
            [ {| type := Preserve; priority := 2;
                 text := "Preservation options: "
                         +:+ join ", " (take 2 methods) |} ]
        | None => []
        end
        ++ match RECIPE_SUGGESTIONS !! category_name (category it) with
           | Some ideas =>
               [ {| type := RecipeSuggestion; priority := 3;
                    text := "Try making: " +:+ join " or " (take 2 ideas) |} ]
           | None => []
           end) ->
  (type r = Preserve /\ priority r = 2)
  \/ (type r = RecipeSuggestion /\ priority r = 3).
Proof.
  intros H. apply in_app_iff in H. destruct H as [H|H].
  - destruct (PRESERVATION_METHODS !! _); simpl in H; [|tauto].
    destruct H as [<-|[]]. auto.
  - destruct (RECIPE_SUGGESTIONS !! _); simpl in H; [|tauto].
    destruct H as [<-|[]]. auto.
Qed.

(** X6: a Donate entry is suggested exactly for the items of the urgent
    tier (score at least 70, or at most 3 days to a known expiry) of which
    more than half of the initial quantity is left. *)
Theorem donate_entry_iff (it : FoodItem) :
  (exists r, In r (generate_recommendations it) /\ type r = Donate)
  <-> Spec.urgent_tier it = true
      /\ PrimFloat.ltb (initial_quantity it * 0.5) (quantity it) = true.
Proof.
  unfold Spec.urgent_tier, generate_recommendations.
  split.
  - intros (r & Hin & Hty).
    apply in_app_iff in Hin. destruct Hin as [Hin|Hin].
    + destruct (PrimFloat.leb 70 (waste_risk_score it)
                || known_le (days_until_expiry it) 3).
      * split; [reflexivity|].
        unfold _get_urgent_recommendations in Hin.
        destruct Hin as [<-|Hin].
        { destruct (days_until_expiry it) as [d|]; [|discriminate].
          repeat match type of Hty with
                 | context [if ?b then _ else _] => destruct b
                 end; discriminate. }
        destruct (PrimFloat.ltb _ _); [reflexivity|destruct Hin].
      * exfalso.
        destruct (_ || _).
        -- unfold _get_medium_risk_recommendations in Hin.
           apply in_app_iff in Hin. destruct Hin as [Hin|Hin].
           ++ destruct (days_until_expiry it); simpl in Hin; [|tauto].
              destruct Hin as [<-|[]]; discriminate.
           ++ destruct (PrimFloat.eqb _ _); [|destruct (PrimFloat.ltb _ _)];
                simpl in Hin; try tauto; destruct Hin as [<-|[]];
                discriminate.
        -- rewrite low_tier_entry in Hin. destruct Hin as [<-|[]].
           discriminate.
    + destruct (table_entries_not_donate it r Hin) as [[H _]|[H _]];
        congruence.
  - intros [-> Hhalf].
    exists {| type := Donate; priority := 1;
              text := "Consider donating excess " +:+ item_name it +:+
                      " to reduce waste." |}.
    split; [|reflexivity].
    apply in_app_iff. left.
    unfold _get_urgent_recommendations. rewrite Hhalf.
    right. left. reflexivity.
Qed.

Lemma donate_entry_iff_witness :
  Spec.urgent_tier
    {| item_name := "Salmon"; category := fish; quantity := 2;
       initial_quantity := 2; status := Active; waste_risk_score := 80;
       days_until_expiry := Some 2; consumption_rate := 0;
       days_since_purchase := 1 |} = true
  /\ exists r,
       In r (generate_recommendations
               {| item_name := "Salmon"; category := fish; quantity := 2;
                  initial_quantity := 2; status := Active;
                  waste_risk_score := 80; days_until_expiry := Some 2;
                  consumption_rate := 0; days_since_purchase := 1 |})
       /\ type r = Donate.
Proof.
  split; [reflexivity|].
  apply (proj2 (donate_entry_iff _)). split; reflexivity.
Defined.

Lemma tier_lengths (it : FoodItem) :
  (length (_get_urgent_recommendations it) <= 2)%nat
  /\ (length (_get_medium_risk_recommendations it) <= 2)%nat
  /\ (length (_get_low_risk_recommendations it) <= 2)%nat.
Proof.
  unfold _get_urgent_recommendations, _get_medium_risk_recommendations,
    _get_low_risk_recommendations.
  repeat split.
  - destruct (PrimFloat.ltb _ _); simpl; lia.
  - rewrite length_app.
    destruct (days_until_expiry it);
      (destruct (PrimFloat.eqb _ _); [|destruct (PrimFloat.ltb _ _)]);
      simpl; lia.
  - simpl. lia.
Qed.

(** X7: the shape of a recommendation list: at most four entries, every
    priority between 1 and 3, and, as soon as the days until expiry are
    known, a first entry that is a Use Soon entry (the list is then not
    empty). *)
Theorem recommendations_shape (it : FoodItem) :
  (length (generate_recommendations it) <= 4)%nat
  /\ (forall r, In r (generate_recommendations it) -> 1 <= priority r <= 3)
  /\ (forall d, days_until_expiry it = Some d ->
      exists r rest, generate_recommendations it = r :: rest
                     /\ type r = UseSoon).
Proof.
  unfold generate_recommendations.
  destruct (tier_lengths it) as (Lu & Lm & Ll).
  repeat split.
  - rewrite !length_app.
    assert (forall A (o : option (list string)) (f : list string -> A),
              (length (match o with Some x => [f x] | None => [] end) <= 1)%nat)
      as Hone by (intros A [x|] f; simpl; lia).
    pose proof (Hone _ (PRESERVATION_METHODS !! category_name (category it))
      (fun methods => {| type := Preserve; priority := 2;
         text := "Preservation options: " +:+ join ", " (take 2 methods) |})).
    pose proof (Hone _ (RECIPE_SUGGESTIONS !! category_name (category it))
      (fun ideas => {| type := RecipeSuggestion; priority := 3;
         text := "Try making: " +:+ join " or " (take 2 ideas) |})).
    destruct (_ || _); [lia|]. destruct (_ || _); lia.
  - apply in_app_iff in H. destruct H as [H|H].
    + destruct (_ || _).
      * destruct (urgent_and_medium_priorities it r (or_introl H)); lia.
      * destruct (_ || _).
        -- destruct (urgent_and_medium_priorities it r (or_intror H)); lia.
        -- rewrite low_tier_entry in H. destruct H as [<-|[]]. simpl. lia.
    + destruct (table_entries_not_donate it r H) as [[_ ->]|[_ ->]]; lia.
  - apply in_app_iff in H. destruct H as [H|H].
    + destruct (_ || _).
      * destruct (urgent_and_medium_priorities it r (or_introl H)); lia.
      * destruct (_ || _).
        -- destruct (urgent_and_medium_priorities it r (or_intror H)); lia.
        -- rewrite low_tier_entry in H. destruct H as [<-|[]]. simpl. lia.
    + destruct (table_entries_not_donate it r H) as [[_ ->]|[_ ->]]; lia.
  - intros d Hd.
    destruct (_ || _); [|destruct (_ || _)].
    + unfold _get_urgent_recommendations. rewrite Hd.
      eexists. eexists. split; [reflexivity|].
      repeat match goal with
             | |- context [if ?b then _ else _] => destruct b
             end; reflexivity.
    + unfold _get_medium_risk_recommendations. rewrite Hd.
      eexists. eexists. split; [reflexivity|reflexivity].
    + rewrite low_tier_entry.
      eexists. eexists. split; [reflexivity|reflexivity].
Qed.

Lemma recommendations_shape_witness :
  exists r rest, generate_recommendations salmon = r :: rest
                 /\ type r = UseSoon.
Proof.
  apply (proj2 (proj2 (recommendations_shape salmon)) (-1)). reflexivity.
Defined.

(** Every category that has recipe ideas has preservation methods. *)
Lemma recipe_categories_preserved (name : string) (ideas : list string) :
  RECIPE_SUGGESTIONS !! name = Some ideas ->
  exists methods, PRESERVATION_METHODS !! name = Some methods.
Proof.
  unfold RECIPE_SUGGESTIONS. intros H.
  apply elem_of_list_to_map_2 in H.
  repeat (apply elem_of_cons in H; destruct H as [H|H];
          [injection H as -> _; eexists; vm_compute; reflexivity|]).
  apply elem_of_nil in H. destruct H.
Qed.

(** X8: recipe ideas never come alone: a Recipe Suggestion entry is the
    last entry of its list and the entry just before it is a Preserve
    entry. *)
Theorem recipe_entry_follows_preserve (it : FoodItem) (r : Recommendation) :
  In r (generate_recommendations it) -> type r = RecipeSuggestion ->
  exists before p,
    generate_recommendations it = before ++ [p; r]
    /\ type p = Preserve.
Proof.
  intros Hin Hty.
  destruct (table_entry_types it r Hin)
    as [H|[H|[[H _]|[_ (ideas & Hideas & ->)]]]]; try congruence.
  destruct (recipe_categories_preserved _ _ Hideas) as (methods & Hmethods).
  unfold generate_recommendations. rewrite Hideas, Hmethods.
  eexists. eexists. split; [reflexivity|reflexivity].
Qed.

Lemma recipe_entry_follows_preserve_witness :
  exists before p,
    generate_recommendations
      {| item_name := "Milk";
         category := {| category_name := "Dairy";
                        perishability_level := High |};
         quantity := 1; initial_quantity := 2; status := Active;
         waste_risk_score := 20; days_until_expiry := Some 12;
         consumption_rate := 0.2; days_since_purchase := 2 |}
    = before
      ++ [ p;
           {| type := RecipeSuggestion; priority := 3;
              text := "Try making: Cheese omelette or Creamy pasta sauce" |} ]
    /\ type p = Preserve.
Proof.
  apply recipe_entry_follows_preserve; [|reflexivity].
  vm_compute. right. right. left. reflexivity.
Defined.

(** ** Properties of the item as read from its row *)

(** X9: [consumption_rate] never divides by zero: it returns a rate for
    every row and every date, and the rate is 0 for a row without
    consumption logs and for a row bought today or later. *)
Theorem consumption_rate_guarded (sum : list float -> float) (today : Z)
        (row : Models.FoodItemRow) :
  exists rate,
    Models.consumption_rate_of sum today row = Ok rate
    /\ (Models.consumption_logs row = []
        \/ today <= Models.purchase_date row ->
        rate = 0%float).
Proof.
  unfold Models.consumption_rate_of, Models.truediv_int.
  destruct (Models.consumption_logs row) as [|q logs].
  - exists 0%float. split; [reflexivity|auto].
  - destruct (Z.leb_spec (today - Models.purchase_date row) 0).
    + exists 0%float. split; [reflexivity|auto].
    + destruct (Z.eqb_spec (today - Models.purchase_date row) 0); [lia|].
      eexists. split; [reflexivity|].
      intros [?|?]; [discriminate|lia].
Qed.

Lemma consumption_rate_guarded_witness :
  exists rate,
    Models.consumption_rate_of
      (fun l => fold_left PrimFloat.add l 0%float) 738000
      {| Models.row_item_name := "Rice"; Models.row_category := grains;
         Models.row_quantity := 5; Models.row_initial_quantity := 5;
         Models.row_status := Active; Models.row_waste_risk_score := 0;
         Models.purchase_date := 738000; Models.expiry_date := Some 738030;
         Models.consumption_logs := [1%float] |} = Ok rate
    /\ rate = 0%float.
Proof.
  destruct (consumption_rate_guarded
      (fun l => fold_left PrimFloat.add l 0%float) 738000
      {| Models.row_item_name := "Rice"; Models.row_category := grains;
         Models.row_quantity := 5; Models.row_initial_quantity := 5;
         Models.row_status := Active; Models.row_waste_risk_score := 0;
         Models.purchase_date := 738000; Models.expiry_date := Some 738030;
         Models.consumption_logs := [1%float] |}) as (rate & Hrate & Hzero).
  exists rate. split; [exact Hrate|]. apply Hzero. right. simpl. lia.
Defined.

(** X10: an item without consumption logs, or bought today, never gets the
    low consumption sub-risk: the sub-risk is 100 when the expiry date is
    missing or reached, and otherwise 80 when the purchase is more than 3
    days old and 50 when it is not. *)
Theorem unlogged_item_consumption_risk (sum : list float -> float)
        (today : Z) (row : Models.FoodItemRow) :
  Models.consumption_logs row = [] \/ today <= Models.purchase_date row ->
  exists it,
    Models.observe sum today row = Ok it
    /\ _calculate_consumption_risk it
       = Ok (match Models.expiry_date row with
             | None => 100
             | Some e =>
                 if e <=? today then 100
                 else if 3 <? today - Models.purchase_date row then 80
                 else 50
             end).
Proof.
  intros Hfresh.
  assert (Hrate : Models.consumption_rate_of sum today row = Ok 0%float).
  { unfold Models.consumption_rate_of.
    destruct (Models.consumption_logs row) as [|q logs]; [reflexivity|].
    destruct Hfresh as [?|Hnew]; [discriminate|].
    destruct (Z.leb_spec (today - Models.purchase_date row) 0);
      [reflexivity|lia]. }
  unfold Models.observe. rewrite Hrate. simpl.
  eexists. split; [reflexivity|].
  unfold _calculate_consumption_risk, Models.days_until_expiry_of. simpl.
  destruct (Models.expiry_date row) as [e|]; [|reflexivity].
  destruct (Z.leb_spec (e - today) 0); destruct (Z.leb_spec e today);
    try lia; [reflexivity|].
  change (PrimFloat.eqb 0 0) with true. cbv iota.
  rewrite Z.gtb_ltb.
  destruct (3 <? today - Models.purchase_date row); reflexivity.
Qed.

Lemma unlogged_item_consumption_risk_witness :
  exists it,
    Models.observe (fun l => fold_left PrimFloat.add l 0%float) 738005
      {| Models.row_item_name := "Rice"; Models.row_category := grains;
         Models.row_quantity := 5; Models.row_initial_quantity := 5;
         Models.row_status := Active; Models.row_waste_risk_score := 0;
         Models.purchase_date := 738000; Models.expiry_date := Some 738030;
         Models.consumption_logs := [] |} = Ok it
    /\ _calculate_consumption_risk it = Ok 80.
Proof.
  apply (unlogged_item_consumption_risk
           (fun l => fold_left PrimFloat.add l 0%float) 738005
           {| Models.row_item_name := "Rice"; Models.row_category := grains;
              Models.row_quantity := 5; Models.row_initial_quantity := 5;
              Models.row_status := Active; Models.row_waste_risk_score := 0;
              Models.purchase_date := 738000;
              Models.expiry_date := Some 738030;
              Models.consumption_logs := [] |}).
  left. reflexivity.
Defined.

(** X11: time only raises the shelf-life sub-risk: the same row read on a
    later day never has a lower shelf-life sub-risk. *)
Theorem shelf_life_risk_grows_with_time (sum : list float -> float)
        (day1 day2 : Z) (row : Models.FoodItemRow) (it1 it2 : FoodItem) :
  day1 <= day2 ->
  Models.observe sum day1 row = Ok it1 ->
  Models.observe sum day2 row = Ok it2 ->
  _calculate_shelf_life_risk it1 <= _calculate_shelf_life_risk it2.
Proof.
  intros Hle H1 H2. unfold Models.observe in H1, H2.
  destruct (Models.consumption_rate_of sum day1 row); [|discriminate].
  destruct (Models.consumption_rate_of sum day2 row); [|discriminate].
  simpl in H1, H2. injection H1 as <-. injection H2 as <-.
  unfold _calculate_shelf_life_risk, Models.days_until_expiry_of. simpl.
  destruct (Models.expiry_date row) as [e|]; [|lia].
  repeat match goal with
         | |- context [?a <? ?b] => destruct (Z.ltb_spec a b)
         | |- context [?a <=? ?b] => destruct (Z.leb_spec a b)
         end; lia.
Qed.

Lemma shelf_life_risk_grows_with_time_witness :
  _calculate_shelf_life_risk
    {| item_name := "Rice"; category := grains; quantity := 5;
       initial_quantity := 5; status := Active; waste_risk_score := 0;
       days_until_expiry := Some 30; consumption_rate := 0;
       days_since_purchase := 0 |}
  <= _calculate_shelf_life_risk
       {| item_name := "Rice"; category := grains; quantity := 5;
          initial_quantity := 5; status := Active; waste_risk_score := 0;
          days_until_expiry := Some 3; consumption_rate := 0;
          days_since_purchase := 27 |}.
Proof.
  apply (shelf_life_risk_grows_with_time
           (fun l => fold_left PrimFloat.add l 0%float) 738000 738027
           {| Models.row_item_name := "Rice"; Models.row_category := grains;
              Models.row_quantity := 5; Models.row_initial_quantity := 5;
              Models.row_status := Active; Models.row_waste_risk_score := 0;
              Models.purchase_date := 738000;
              Models.expiry_date := Some 738030;
              Models.consumption_logs := [] |});
    [lia|reflexivity|reflexivity].
Defined.

(** ** Properties of the rescoring loop and of the dashboard lists *)

Import PredictionRoute.

Lemma calculate_waste_risk_returns (it : FoodItem) :
  exists r, calculate_waste_risk it = Ok r
            /\ PrimFloat.leb 0 r = true /\ PrimFloat.leb r 100 = true.
Proof.
  destruct (is_active (status it)) eqn:Hst.
  - assert (status it = Active) as Hact
        by (destruct (status it); (reflexivity || discriminate)).
    destruct (active_score_shape it Hact)
      as (s & c & q & p & Hr & _ & _ & _ & _ & Hs & Hc & Hq & Hp).
    eexists. split; [exact Hr|]. apply andb_prop.
    exact (every_score_spec _ s c q p every_score_in_range Hs Hc Hq Hp).
  - exists 0%float. split; [|split; reflexivity].
    apply inactive_score. intros Hact. rewrite Hact in Hst. discriminate.
Qed.

(** The alert that a turn of the loop adds for an item with a new score. *)
Lemma process_item_unfold (it : FoodItem) (existing_alert : bool) (r : float) :
  calculate_waste_risk it = Ok r ->
  process_item it existing_alert
  = if should_generate_alert (with_waste_risk_score r it) default_threshold
    then
      if negb existing_alert then
        match select_alert_type (with_waste_risk_score r it) r with
        | Fail e => Fail e
        | Return t =>
            Return
              (with_waste_risk_score r it,
               Some {| alert_type := t;
                       alert_message :=
                         get_alert_message (with_waste_risk_score r it);
                       recommendation :=
                         join "; "
                           (map text
                              (take 2 (generate_recommendations
                                         (with_waste_risk_score r it)))) |})
        end
      else Return (with_waste_risk_score r it, None)
    else Return (with_waste_risk_score r it, None).
Proof. intros Hr. unfold process_item. rewrite Hr. reflexivity. Qed.

(** X12: the type and the message of an alert agree.  When a turn of the
    rescoring loop creates an alert, the item has a known expiry, had no
    unread alert, and: an 'Expired' alert carries the expired message, an
    'Expiring Soon' alert the expires-today or expires-in-N-days message, a
    'High Risk' alert the high-risk message and a 'Medium Risk' alert the
    needs-attention message; the generic status message is never stored. *)
Theorem alert_type_matches_message (it it' : FoodItem)
        (existing_alert : bool) (a : Alert) :
  process_item it existing_alert = Return (it', Some a) ->
  existing_alert = false
  /\ calculate_waste_risk it = Ok (waste_risk_score it')
  /\ exists d,
       days_until_expiry it = Some d
       /\ alert_message a
          = match alert_type a with
            | Expired =>
                item_name it
                +:+ " has expired! Please check and dispose if spoiled."
            | ExpiringSoon =>
                if d <=? 1
                then item_name it +:+ " expires today! Use immediately."
                else item_name it +:+ " expires in " +:+ str d
                     +:+ " days. Use soon!"
            | HighRisk =>
                item_name it +:+ " is at high risk of waste. Take action now."
            | MediumRisk =>
                item_name it +:+ " needs attention. Plan to use soon."
            end
       /\ (alert_type a = Expired <-> d < 0)
       /\ (alert_type a = ExpiringSoon <-> 0 <= d <= 3).
Proof.
  intros Hrun.
  destruct (calculate_waste_risk_returns it) as (r & Hr & _).
  rewrite (process_item_unfold it existing_alert r Hr) in Hrun.
  destruct (should_generate_alert _ _) eqn:Halert; [|discriminate].
  destruct existing_alert; [discriminate|]. simpl in Hrun.
  unfold select_alert_type in Hrun. simpl in Hrun.
  destruct (days_until_expiry it) as [d|] eqn:Hd; [|discriminate].
  injection Hrun as <- <-. simpl.
  split; [reflexivity|]. split; [exact Hr|].
  exists d. split; [reflexivity|].
  unfold get_alert_message, should_generate_alert, default_threshold in *.
  simpl in *. rewrite Hd in *.
  destruct (Z.ltb_spec d 0).
  { split; [reflexivity|]. split; [tauto|]. split; [discriminate|lia]. }
  destruct (Z.leb_spec d 3).
  { split; [destruct (Z.leb_spec d 1); reflexivity|].
    split; [split; [discriminate|lia]|tauto]. }
  destruct (Z.leb_spec d 1); [lia|].
  destruct (PrimFloat.leb 70 r).
  { split; [reflexivity|]. split; split; (discriminate || lia). }
  destruct (PrimFloat.leb 40 r); [|discriminate].
  split; [reflexivity|]. split; split; (discriminate || lia).
Qed.

Lemma alert_type_matches_message_witness :
  exists it' a,
    process_item salmon false = Return (it', Some a)
    /\ alert_type a = Expired
    /\ alert_message a
       = "Salmon has expired! Please check and dispose if spoiled."%string.
Proof.
  assert (Hrun : exists it' a, process_item salmon false = Return (it', Some a)).
  { eexists. eexists. vm_compute. reflexivity. }
  destruct Hrun as (it' & a & Hrun).
  exists it', a. split; [exact Hrun|].
  destruct (alert_type_matches_message salmon it' false a Hrun)
    as (_ & _ & d & Hd & Hmsg & Hexp & _).
  injection Hd as <-.
  assert (Ha : alert_type a = Expired) by (apply Hexp; lia).
  rewrite Ha in Hmsg. split; [exact Ha|exact Hmsg].
Defined.

(** A turn of the loop never fails on arithmetic. *)
Lemma process_item_outcomes (it : FoodItem) (existing_alert : bool) :
  (exists done, process_item it existing_alert = Return done
                /\ PrimFloat.leb 0 (waste_risk_score (fst done)) = true
                /\ PrimFloat.leb (waste_risk_score (fst done)) 100 = true)
  \/ (process_item it existing_alert = Fail TypeError
      /\ days_until_expiry it = None).
Proof.
  destruct (calculate_waste_risk_returns it) as (r & Hr & H0 & H100).
  rewrite (process_item_unfold it existing_alert r Hr).
  destruct (should_generate_alert _ _); [|left; eexists; eauto].
  destruct (negb existing_alert); [|left; eexists; eauto].
  unfold select_alert_type. simpl.
  destruct (days_until_expiry it); [left; eexists; eauto|right; auto].
Qed.




(** X14: when every item of the batch has an expiry date the rescoring
    succeeds: every item is rescored ([updated_count] is the size of the
    batch), every stored score lies between 0 and 100, and no more alerts
    are created than items were rescored. *)
Theorem dated_batch_is_rescored (active_items : list (FoodItem * bool)) :
  (forall it existing, In (it, existing) active_items ->
                       days_until_expiry it <> None) ->
  exists dones,
    process_items active_items = Return dones
    /\ updated_count dones = length active_items
    /\ (alerts_created dones <= updated_count dones)%nat
    /\ (forall it' alert, In (it', alert) dones ->
          PrimFloat.leb 0 (waste_risk_score it') = true
          /\ PrimFloat.leb (waste_risk_score it') 100 = true).
Proof.
  unfold updated_count, alerts_created.
  induction active_items as [|[item existing] rest IH]; intros Hdated.
  - exists []. simpl. repeat split; auto; contradiction.
  - destruct IH as (dones & Hrest & Hlen & _ & Hrange).
    { intros it ex Hin. apply (Hdated it ex). right. exact Hin. }
    destruct (process_item_outcomes item existing)
      as [(done & Hdone & H0 & H100)|[_ Hnone]].
    + exists (done :: dones). split.
      { cbn [process_items]. rewrite Hdone, Hrest. reflexivity. }
      split; [simpl; lia|].
      split; [apply filter_length_le|].
      intros it' alert [Heq|Hin]; [subst done; simpl in *; auto|eauto].
    + exfalso. apply (Hdated item existing); [left; reflexivity|exact Hnone].
Qed.

Lemma dated_batch_is_rescored_witness :
  exists dones,
    process_items [(rice, false); (salmon, false)] = Return dones
    /\ updated_count dones = 2%nat
    /\ (alerts_created dones <= updated_count dones)%nat.
Proof.
  destruct (dated_batch_is_rescored [(rice, false); (salmon, false)])
    as (dones & Hrun & Hlen & Hle & _).
  - intros it existing [Heq|[Heq|[]]]; injection Heq as <- _; discriminate.
  - exists dones. split; [exact Hrun|]. split; [exact Hlen|exact Hle].
Defined.

(** X15: the lists of the dashboard follow [get_risk_level]: an active item
    is counted as high risk exactly when the level of its stored score is
    'High', as medium risk exactly when it is 'Medium', and an item listed
    as expiring soon is due an alert whatever the threshold is. *)
Theorem dashboard_lists_follow_risk_level
        (active_items : list FoodItem) (it : FoodItem) :
  (In it (high_risk_items active_items)
   <-> In it active_items
       /\ get_risk_level (waste_risk_score it) = "High"%string)
  /\ (In it (medium_risk_items active_items)
      <-> In it active_items
          /\ get_risk_level (waste_risk_score it) = "Medium"%string)
  /\ (In it (expiring_soon active_items) ->
      forall threshold, should_generate_alert it threshold = true).
Proof.
  unfold high_risk_items, medium_risk_items, expiring_soon.
  rewrite !filter_In. split; [|split].
  - rewrite risk_level_high. tauto.
  - rewrite <- risk_level_medium.
    destruct (PrimFloat.leb 40 (waste_risk_score it)) eqn:H40.
    + rewrite (ltb_70_negb_leb _ H40).
      destruct (PrimFloat.leb 70 (waste_risk_score it)); simpl;
        intuition congruence.
    + simpl. split; [intros [_ ?]|intros [_ [_ ?]]]; discriminate.
  - intros [_ Hsoon] threshold. unfold should_generate_alert.
    destruct (PrimFloat.leb threshold (waste_risk_score it)); [reflexivity|].
    destruct (days_until_expiry it) as [d|]; [|discriminate].
    apply andb_prop in Hsoon. destruct Hsoon as [_ ->]. reflexivity.
Qed.

Lemma dashboard_lists_follow_risk_level_witness :
  In undated_rice (medium_risk_items [rice; undated_rice; salmon]).
Proof.
  apply (proj2 (proj1 (proj2 (dashboard_lists_follow_risk_level
                                [rice; undated_rice; salmon] undated_rice)))).
  split; [right; left; reflexivity|reflexivity].
Defined.
